(** * Yootil: [yootil.page.__get_data], [yootil.create.bbc_tab] and [yootil.create.page]

  A shallow embedding of the platform metadata lookup, of the editor
  tab switcher (registration of a tab and the click handler it installs)
  and of the page helper, with the properties the specification states
  about them and further properties the code has. *)

From Stdlib Require Import ZArith String Ascii List Bool Lia.
From stdpp Require Import base option list strings.

Local Set Warnings "-register-all".
Local Open Scope string_scope.
Local Open Scope list_scope.

(** ** JavaScript strings

  Strings are sequences of code units; every function below inspects
  ASCII characters only and passes every other unit through unchanged. *)

Module JsString.

Definition is_upper (c : ascii) : bool :=
  (65 <=? nat_of_ascii c)%nat && (nat_of_ascii c <=? 90)%nat.

Definition lower (c : ascii) : ascii :=
  if is_upper c then ascii_of_nat (nat_of_ascii c + 32) else c.

Fixpoint to_lower (s : string) : string :=
  match s with
  | EmptyString => EmptyString
  | String c s' => String (lower c) (to_lower s')
  end.

(** [contains needle hay]: [needle] occurs somewhere in [hay]. *)
Fixpoint contains (needle hay : string) : bool :=
  String.prefix needle hay ||
  match hay with
  | EmptyString => false
  | String _ hay' => contains needle hay'
  end.

(** [s.split(sep)] for a non-empty separator [sep]: [cur] is the piece
    being read, [skip] the number of units of a matched separator still
    to be passed over. *)
Fixpoint split_go (sep : string) (skip : nat) (cur s : string) : list string :=
  match s with
  | EmptyString => [cur]
  | String c s' =>
      match skip with
      | S k => split_go sep k cur s'
      | O =>
          if String.prefix sep s
          then cur :: split_go sep (String.length sep - 1) EmptyString s'
          else split_go sep 0 (cur +:+ String c EmptyString) s'
      end
  end.

Definition split (sep s : string) : list string := split_go sep 0 EmptyString s.

(** A word character of a regular expression ([\w]) or a hyphen. *)
Definition is_word_or_dash (c : ascii) : bool :=
  let n := nat_of_ascii c in
  ((48 <=? n)%nat && (n <=? 57)%nat) || ((65 <=? n)%nat && (n <=? 90)%nat)
  || ((97 <=? n)%nat && (n <=? 122)%nat) || (n =? 95)%nat || (n =? 45)%nat.

Fixpoint all_chars (p : ascii -> bool) (s : string) : bool :=
  match s with
  | EmptyString => true
  | String c s' => p c && all_chars p s'
  end.

(** The text of [s] before its first apostrophe, when it has one. *)
Fixpoint until_quote (s : string) : option string :=
  match s with
  | EmptyString => None
  | String c s' =>
      if Ascii.eqb c "'"%char then Some EmptyString
      else option_map (String c) (until_quote s')
  end.

(** [drop_prefix p s]: [s] without its prefix [p], when [p] is one. *)
Fixpoint drop_prefix (p s : string) : option string :=
  match p, s with
  | EmptyString, _ => Some s
  | String a p', String b s' => if Ascii.eqb a b then drop_prefix p' s' else None
  | String _ _, EmptyString => None
  end.

End JsString.

(** ** [yootil.page]: the platform's page data *)

Module Page.

(** JavaScript values as the platform's data objects hold them. An
    object is the list of its own properties, all of them data
    properties (the first entry of a key is the one that counts); a
    function is known by a name. *)
Inductive jsval : Type :=
| JUndefined
| JNull
| JBool (b : bool)
| JNumber (n : Z)
| JString (s : string)
| JArray (items : list jsval)
| JObject (fields : list (string * jsval))
| JFunction (name : string).

Definition typeof (v : jsval) : string :=
  match v with
  | JUndefined => "undefined"
  | JNull => "object"
  | JBool _ => "boolean"
  | JNumber _ => "number"
  | JString _ => "string"
  | JArray _ => "object"
  | JObject _ => "object"
  | JFunction _ => "function"
  end.

(** The truth test of [&&] and [if]. *)
Definition truthy (v : jsval) : bool :=
  match v with
  | JUndefined => false
  | JNull => false
  | JBool b => b
  | JNumber n => negb (n =? 0)%Z
  | JString s => negb (String.eqb s "")
  | JArray _ => true
  | JObject _ => true
  | JFunction _ => true
  end.

(** The own property [key] of an object. *)
Fixpoint own (fields : list (string * jsval)) (key : string) : option jsval :=
  match fields with
  | [] => None
  | (k, v) :: rest => if String.eqb k key then Some v else own rest key
  end.

(** The global variable [proboards]: not declared in the page at all,
    or holding a value. *)
Inductive global : Type :=
| Undeclared
| Declared (v : jsval).

(** How a call ends: with a value, or in the [ReferenceError] of an
    identifier that is not declared. *)
Inductive completion : Type :=
| Return (v : jsval)
| ReferenceError.

Section Lookup.

(** [inherited v key]: what [v[key]] gives when [key] is not an own
    property of a plain object [v], that is, what the page's prototypes
    hold under that name ([constructor], [toString], ...), the elements
    and the length of an array or a string, and [undefined] where there
    is nothing. *)
Variable inherited : jsval -> string -> jsval.

(** [v[key]] and [v.key], for a value [v] that is not [undefined] or
    [null]. *)
Definition get (v : jsval) (key : string) : jsval :=
  match v with
  | JObject fields =>
      match own fields key with
      | Some x => x
      | None => inherited v key
      end
  | _ => inherited v key
  end.

(** [yootil.page.__get_data(key)]:
    [if (proboards && proboards.dataHash && proboards.dataHash.page
         && typeof proboards.dataHash.page[key] != "undefined")
       return proboards.dataHash.page[key];
     return "";] *)
Definition __get_data (proboards : global) (key : string) : completion :=
  match proboards with
  | Undeclared => ReferenceError
  | Declared pb =>
      if truthy pb then
        if truthy (get pb "dataHash") then
          if truthy (get (get pb "dataHash") "page") then
            if negb (String.eqb (typeof (get (get (get pb "dataHash") "page") key))
                       "undefined")
            then Return (get (get (get pb "dataHash") "page") key)
            else Return (JString "")
          else Return (JString "")
        else Return (JString "")
      else Return (JString "")
  end.

(** [proboards.dataHash.page], when [proboards] is declared and each of
    the three values passes the truth test. *)
Definition page_data (proboards : global) : option jsval :=
  match proboards with
  | Undeclared => None
  | Declared pb =>
      if truthy pb && truthy (get pb "dataHash")
         && truthy (get (get pb "dataHash") "page")
      then Some (get (get pb "dataHash") "page")
      else None
  end.

(** C8 as worded, in its two halves about what is not there: the empty
    string for a key that is not stored in the page data object, and the
    empty string, never an error, when the data object is missing. *)
Definition absent_key_gives_empty : Prop :=
  forall proboards fields key,
    page_data proboards = Some (JObject fields) -> own fields key = None ->
    __get_data proboards key = Return (JString "").

Definition missing_data_gives_empty : Prop :=
  forall proboards key,
    page_data proboards = None -> __get_data proboards key = Return (JString "").

End Lookup.

(** The methods of [Object.prototype]. *)
Definition object_methods : list string :=
  ["constructor"; "hasOwnProperty"; "isPrototypeOf"; "propertyIsEnumerable";
   "toLocaleString"; "toString"; "valueOf"].

(** What plain objects inherit in a page that left [Object.prototype] as
    it is: its methods. (Other values are given no properties here; the
    pages below hold plain objects only.) *)
Definition plain_objects (v : jsval) (key : string) : jsval :=
  match v with
  | JObject _ =>
      if existsb (String.eqb key) object_methods then JFunction key else JUndefined
  | _ => JUndefined
  end.

(** A page whose data object holds the id of the board. *)
Definition board_page : global :=
  Declared (JObject [("dataHash", JObject [("page", JObject [("id", JNumber 7)])])]).

End Page.


(** ** [yootil.create.bbc_tab]: the document and the script's effects *)

(** Errors a handler can end with. *)
Inductive exn : Type :=
| TypeError      (* a method called on [undefined] *)
| SyntaxError.   (* raised by the selector engine *)

Inductive result (A : Type) : Type :=
| Ok (a : A)
| Throw (e : exn).
Arguments Ok {A} a.
Arguments Throw {A} e.

(** Function objects and context objects are known by their identity. *)
Definition callback : Type := nat.
Definition jsobject : Type := nat.

(** The [events] argument: each member may be missing. *)
Record events_t : Type := {
  ev_show : option callback;
  ev_hide : option callback;
  ev_context : option jsobject }.

(** What a click handler captures from the registration that created it:
    [events], [$tab] and [$tab_content] (elements by node identity). *)
Record closure : Type := {
  c_events : option events_t;
  c_tab : nat;
  c_content : nat }.

(** An element of the document. [nid] is its identity as a node, [eid] its
    [id] attribute, [shown] is false when its own style says
    [display: none], [active] is the class [ui-active], [handlers] the
    click handlers bound to it, oldest first. *)
Record element : Type := {
  nid : nat;
  eid : option string;
  shown : bool;
  active : bool;
  style : list (string * string);
  handlers : list closure }.

Definition set_shown (b : bool) (e : element) : element :=
  {| nid := nid e; eid := eid e; shown := b; active := active e;
     style := style e; handlers := handlers e |}.

Definition set_active (b : bool) (e : element) : element :=
  {| nid := nid e; eid := eid e; shown := shown e; active := b;
     style := style e; handlers := handlers e |}.

Definition set_style (c : list (string * string)) (e : element) : element :=
  {| nid := nid e; eid := eid e; shown := shown e; active := active e;
     style := c; handlers := handlers e |}.

Definition add_handler (c : closure) (e : element) : element :=
  {| nid := nid e; eid := eid e; shown := shown e; active := active e;
     style := style e; handlers := handlers e ++ [c] |}.

Inductive cbkind : Type := OnShow | OnHide.

(** The value of [this] inside a callback: the bound context, or the
    [events] object the method is called on. *)
Inductive this_t : Type :=
| ThisContext (ctx : jsobject)
| ThisEvents.

(** What the script does that can be observed from outside, in order:
    [e.preventDefault()], a call of a callback with its [this] and its
    two arguments, a change of display, [console.log]. *)
Inductive event : Type :=
| EvPreventDefault
| EvCall (k : cbkind) (fn : callback) (this : this_t) (tab tab_content : nat)
| EvDisplay (b : bool) (nodes : list nat)   (* [.show()] / [.hide()] on a selection *)
| EvEditors (b : bool)                      (* the same on the native editor surface *)
| EvConsole.

(** The part of the page the script reads and writes. [elems] lists the
    elements in document order (the [ul] of the tab row itself is left
    out); the [li] children of the tab row [.editor ul.wysiwyg-tabs] are
    the [n] elements from position [s] on when [row = Some (s, n)], and
    the row is not rendered when [row] is [None]; the page has at most one
    such row. [editors] holds the display state of each element matched by
    [.editor .ui-wysiwyg .editors]. [next_nid] is the identity the next
    created node gets, [log] what was observed so far. *)
Record state : Type := {
  elems : list element;
  row : option (nat * nat);
  editors : list bool;
  next_nid : nat;
  log : list event }.

Definition with_elems (f : list element -> list element) (st : state) : state :=
  {| elems := f (elems st); row := row st; editors := editors st;
     next_nid := next_nid st; log := log st |}.

Definition with_log (t : list event) (st : state) : state :=
  {| elems := elems st; row := row st; editors := editors st;
     next_nid := next_nid st; log := log st ++ t |}.

Definition with_editors (b : bool) (st : state) : state :=
  {| elems := elems st; row := row st; editors := map (fun _ => b) (editors st);
     next_nid := next_nid st; log := log st |}.

(** Positions of the row's headers, in document order. *)
Definition row_indices (st : state) : list nat :=
  match row st with
  | Some (s, n) => seq s n
  | None => []
  end.

(** [$(el).attr("id")]: [None] is [undefined]. *)
Definition attr_id (i : nat) (st : state) : option string :=
  e ← elems st !! i; eid e.

(** [document.getElementById]: the first element in document order. *)
Fixpoint find_id (x : string) (i : nat) (l : list element) : option nat :=
  match l with
  | [] => None
  | e :: l' =>
      if decide (eid e = Some x) then Some i else find_id x (S i) l'
  end.

Definition getElementById (x : string) (l : list element) : option nat :=
  find_id x 0 l.

(** [id.match(/bbcode|visual/i)] as a truth value. *)
Definition is_builtin (id : string) : bool :=
  JsString.contains "bbcode" (JsString.to_lower id)
  || JsString.contains "visual" (JsString.to_lower id).

(** [id.split("menu-item-")[1]], with [None] for [undefined]. *)
Definition panel_name (id : string) : option string :=
  JsString.split "menu-item-" id !! 1%nat.

(** [selector = ""; if (id) selector = "#" + id.split("menu-item-")[1]],
    with [id = None] for [undefined]. *)
Definition selector_of (id : option string) : string :=
  match id with
  | None => ""
  | Some s =>
      if String.eqb s "" then ""
      else "#" +:+ default "undefined" (panel_name s)
  end.

(** A selector made of [#] and one or more word characters or hyphens is
    answered by [getElementById]. *)
Definition quick_id (sel : string) : option string :=
  match JsString.drop_prefix "#" sel with
  | Some x =>
      if negb (String.eqb x "") && JsString.all_chars JsString.is_word_or_dash x
      then Some x else None
  | None => None
  end.

(** The [id] attribute of the element a piece of markup of the shape
    [<tag id='...'>...] opens, before character references are decoded. *)
Definition raw_id_attr (html : string) : option string :=
  match JsString.drop_prefix "<li id='" html with
  | Some rest => JsString.until_quote rest
  | None =>
      match JsString.drop_prefix "<div id='" html with
      | Some rest => JsString.until_quote rest
      | None => None
      end
  end.

(** *** Running script code: a state that survives an error *)

Definition M (A : Type) : Type := state -> result A * state.

Definition ret {A : Type} (a : A) : M A := fun st => (Ok a, st).

Definition bind {A B : Type} (m : M A) (k : A -> M B) : M B :=
  fun st =>
    match m st with
    | (Ok a, st') => k a st'
    | (Throw e, st') => (Throw e, st')
    end.

Definition throw {A : Type} (e : exn) : M A := fun st => (Throw e, st).

Definition get : M state := fun st => (Ok st, st).

Definition modify (f : state -> state) : M unit := fun st => (Ok tt, f st).

Definition emit (ev : event) : M unit := modify (with_log [ev]).

Notation "'let!' x ':=' m 'in' k" := (bind m (fun x => k))
  (at level 10, x name, m at level 100, k at level 200).
Notation "m ';;' k" := (bind m (fun _ => k))
  (at level 100, k at level 200, right associativity).

(** [$(list).each(body)] with a body that never returns [false]. *)
Fixpoint for_each (js : list nat) (body : nat -> M unit) : M unit :=
  match js with
  | [] => ret tt
  | j :: js' => body j ;; for_each js' body
  end.

Definition in_row (s n i : nat) : bool := (s <=? i)%nat && (i <? s + n)%nat.

Definition insert_at {A : Type} (p : nat) (x : A) (l : list A) : list A :=
  take p l ++ x :: drop p l.

(** The arguments of a registration. *)
Record tab_args : Type := {
  a_title : string;
  a_content : string;
  a_id : string;
  a_css : option (list (string * string));
  a_events : option events_t }.

Definition default_args : tab_args :=
  {| a_title := "My Tab"; a_content := ""; a_id := ""; a_css := None;
     a_events := Some {| ev_show := None; ev_hide := None; ev_context := None |} |}.

Definition default_css : list (string * string) :=
  [("border", "1px solid #E6E6E6"); ("padding", "5px")].

(** The markup of a header, ["<li id='menu-item-" + id + "'><a href='#'>" + title + "</a></li>"],
    and of its panel, ["<div id='" + id + "'>" + content + "</div>"]. *)
Definition tab_markup (id title : string) : string :=
  "<li id='menu-item-" +:+ id +:+ "'><a href='#'>" +:+ title +:+ "</a></li>".

Definition panel_markup (id content : string) : string :=
  "<div id='" +:+ id +:+ "'>" +:+ content +:+ "</div>".

(** *** A page to try things on *)

(** The tab row as the platform renders it: the two built-in headers,
    the visual one active, and the native editor surface displayed. *)
Definition platform_row : state :=
  {| elems :=
       [ {| nid := 0; eid := Some "menu-item-visual"; shown := true; active := true;
            style := []; handlers := [] |};
         {| nid := 1; eid := Some "menu-item-bbcode"; shown := true; active := false;
            style := []; handlers := [] |} ];
     row := Some (0, 2);
     editors := [true];
     next_nid := 2;
     log := [] |}.

Definition events_a : option events_t :=
  Some {| ev_show := Some 10; ev_hide := Some 11; ev_context := None |}.

Definition events_b : option events_t :=
  Some {| ev_show := Some 20; ev_hide := Some 21; ev_context := Some 7 |}.

Definition tab_a : tab_args :=
  {| a_title := "Foo"; a_content := "<p>1</p>"; a_id := "a"; a_css := None;
     a_events := events_a |}.

Definition tab_b : tab_args :=
  {| a_title := "Bar"; a_content := "<p>2</p>"; a_id := "b"; a_css := None;
     a_events := events_b |}.

(** A registration whose identifier has an apostrophe in it. *)
Definition tab_quoted : tab_args :=
  {| a_title := "Baz"; a_content := ""; a_id := "a'b"; a_css := None;
     a_events := events_a |}.

(** The handler the registration of [tab_a] binds on [platform_row]. *)
Definition handler_a : closure :=
  {| c_events := events_a; c_tab := 2; c_content := 3 |}.

(** A row with a header that has no [id] attribute. *)
Definition row_with_bare_header : state :=
  {| elems :=
       [ {| nid := 0; eid := Some "menu-item-bbcode"; shown := true; active := true;
            style := []; handlers := [] |};
         {| nid := 1; eid := None; shown := true; active := false;
            style := []; handlers := [] |} ];
     row := Some (0, 2);
     editors := [true];
     next_nid := 2;
     log := [] |}.

(** A row with a custom header whose panel is not in the document. *)
Definition row_with_orphan : state :=
  {| elems :=
       [ {| nid := 0; eid := Some "menu-item-bbcode"; shown := true; active := true;
            style := []; handlers := [] |};
         {| nid := 1; eid := Some "menu-item-gone"; shown := true; active := false;
            style := []; handlers := [] |} ];
     row := Some (0, 2);
     editors := [true];
     next_nid := 2;
     log := [] |}.

(** A selector engine that finds nothing, and a tokenizer pass that
    changes nothing. *)
Definition empty_engine : string -> list element -> result (list nat) :=
  fun _ _ => Ok [].

Definition verbatim : string -> string := fun s => s.

(** A registration under an identifier that contains [visual]. *)
Definition tab_notes : tab_args :=
  {| a_title := "Notes"; a_content := "<p>3</p>"; a_id := "visual-notes"; a_css := None;
     a_events := events_a |}.

(** The page before the platform has rendered the tab row. *)
Definition page_without_row : state :=
  {| elems :=
       [ {| nid := 0; eid := Some "content"; shown := true; active := false;
            style := []; handlers := [] |} ];
     row := None;
     editors := [];
     next_nid := 1;
     log := [] |}.


(** A regular expression engine for sources without special characters
    after the leading [/?]: the expression is kept as its source, and
    matches a string that contains the rest of it, letter case apart. *)
Definition literal_RegExp (source flags : string) : result string := Ok source.

Definition literal_match (s re : string) : bool :=
  match JsString.drop_prefix "/?" re with
  | Some p => JsString.contains (JsString.to_lower p) (JsString.to_lower s)
  | None => false
  end.

(** A second registration under the identifier of [tab_a]. *)
Definition tab_twin : tab_args :=
  {| a_title := "Twin"; a_content := "<p>4</p>"; a_id := "a"; a_css := None;
     a_events := events_b |}.

Section Browser.

(** The selector engine behind [$(selector)] for selectors that are not
    [#] followed by word characters: it answers with positions in the
    document or raises a syntax error. *)
Variable sizzle : string -> list element -> result (list nat).

(** What the HTML tokenizer makes of the source text of a quoted
    attribute value: character references decoded, carriage returns and
    NUL replaced. *)
Variable charrefs : string -> string.

(** [$(selector)] for a selector string: the matched positions. *)
Definition jq (sel : string) : M (list nat) :=
  fun st =>
    if String.eqb sel "" then (Ok [], st)
    else
      match quick_id sel with
      | Some x => (Ok (option_list (getElementById x (elems st))), st)
      | None =>
          match sizzle sel (elems st) with
          | Ok ps => (Ok ps, st)
          | Throw e => (Throw e, st)
          end
      end.

(** [$(html)] for the markup of a header or of a panel whose title or
    content is inert (text and a few tags without attributes, see
    [inert] below): one new node [n], displayed, with no class and no
    handler, whose [id] is the attribute value the markup gives. What a
    title or a content with other markup adds to the document (elements
    with an [id], list items, further nodes beside the first) is not
    represented: the properties of registrations below are stated for
    inert titles and contents. (Of what the library does to markup
    before the browser reads it, the rewriting of tags closed by [/>],
    nothing reaches a tag whose attribute value has no angle bracket.) *)
Definition from_html (html : string) (n : nat) : element :=
  {| nid := n; eid := charrefs <$> raw_id_attr html; shown := true;
     active := false; style := []; handlers := [] |}.

(** [.hide()] ([b = false]) and [.show()] ([b = true]) on a selection. *)
Definition display (b : bool) (ps : list nat) : M unit :=
  modify (fun st =>
    with_log [EvDisplay b (omap (fun p => nid <$> elems st !! p) ps)]
      (with_elems (fun l => foldr (alter (set_shown b)) l ps) st)).

Definition editors_display (b : bool) : M unit :=
  modify (fun st => with_log [EvEditors b] (with_editors b st)).

(** [if (events && events.k) { if (events.context) events.k.bind(events.context)($tab, $tab_content);
    else events.k($tab, $tab_content); }]. The callback is the caller's
    code: its call is logged with what it is passed, and it is taken to
    return normally and to leave the page as it is. *)
Definition fire (k : cbkind) (c : closure) : M unit :=
  match c_events c with
  | None => ret tt
  | Some ev =>
      match (match k with OnShow => ev_show ev | OnHide => ev_hide ev end) with
      | None => ret tt
      | Some fn =>
          emit (EvCall k fn
                  (match ev_context ev with
                   | Some ctx => ThisContext ctx
                   | None => ThisEvents
                   end)
                  (c_tab c) (c_content c))
      end
  end.

(** [removeClass("ui-active")] on every header of the row, then
    [addClass("ui-active")] on the clicked one. *)
Definition activate (a : nat) : M unit :=
  modify (fun st =>
    with_elems (fun l =>
      alter (set_active true) a
        (match row st with
         | Some (s, n) => imap (fun i e => if in_row s n i then set_active false e else e) l
         | None => l
         end)) st).

(** The body of [.each(function(){ ... })] at the header in position [j],
    [a] being the position of the clicked header. *)
Definition each_body (c : closure) (a j : nat) : M unit :=
  let! st := get in
  match attr_id j st with
  | None => throw TypeError
  | Some id =>
      if is_builtin id then editors_display false
      else if decide (attr_id a st = Some id) then ret tt
      else
        let selector := selector_of (Some id) in
        let! found := jq selector in
        match found with
        | [] => ret tt
        | _ :: _ =>
            fire OnHide c ;;
            let! ps := jq selector in
            display false ps
        end
  end.

(** The code after the loop, for the clicked header. *)
Definition show_active (c : closure) (a : nat) : M unit :=
  let! st := get in
  let id := attr_id a st in
  let selector := selector_of id in
  match id with
  | None => throw TypeError
  | Some s =>
      if is_builtin s then editors_display true
      else
        let! found := jq selector in
        match found with
        | [] => ret tt
        | _ :: _ =>
            emit EvConsole ;;
            fire OnShow c ;;
            let! ps := jq selector in
            display true ps
        end
  end.

(** The click handler a registration binds, run for a click on the
    header in position [a]. *)
Definition tab_click (c : closure) (a : nat) : M unit :=
  emit EvPreventDefault ;;
  activate a ;;
  (let! st := get in for_each (row_indices st) (each_body c a)) ;;
  show_active c a.

(** The handlers bound to an element run in the order they were bound;
    an error ends the dispatch. *)
Fixpoint run_handlers (cs : list closure) (a : nat) : M unit :=
  match cs with
  | [] => ret tt
  | c :: cs' => tab_click c a ;; run_handlers cs' a
  end.

(** A click on the element in position [a]. *)
Definition click (a : nat) : M unit :=
  let! st := get in
  match elems st !! a with
  | Some e => run_handlers (handlers e) a
  | None => ret tt
  end.

Fixpoint clicks (l : list nat) : M unit :=
  match l with
  | [] => ret tt
  | a :: l' => click a ;; clicks l'
  end.

(** [yootil.create.bbc_tab({title, content, id, css, events})]. [stamp] is
    what [yootil.timestamp()] would return at this call, as the string
    concatenation renders it. The result is [$tab_content]. The header
    and the panel are read by [from_html], so this is the registration
    of a tab whose title and content are inert. *)
Definition bbc_tab (a : tab_args) (stamp : string) (st : state) : element * state :=
  let id := if String.eqb (a_id a) "" then stamp else a_id a in
  let wysiwyg_tabs := row st in
  let tab := from_html (tab_markup id (a_title a)) (next_nid st) in
  let tab_content := from_html (panel_markup id (a_content a)) (S (next_nid st)) in
  let tab_content :=
    set_style (match a_css a with Some c => c | None => default_css end) tab_content in
  let tab_content := set_shown false tab_content in
  match wysiwyg_tabs with
  | None =>
      (tab_content,
       {| elems := elems st; row := None; editors := editors st;
          next_nid := S (S (next_nid st)); log := log st |})
  | Some (s, n) =>
      let appended := insert_at (s + n) tab (elems st) in
      let inserted := insert_at s tab_content appended in
      let handler :=
        {| c_events := a_events a; c_tab := nid tab; c_content := nid tab_content |} in
      let bound :=
        imap (fun i e => if in_row (S s) (S n) i then add_handler handler e else e) inserted in
      (tab_content,
       {| elems := bound; row := Some (S s, S n); editors := editors st;
          next_nid := S (S (next_nid st)); log := log st |})
  end.

(** Registrations made one after the other. *)
Fixpoint register_all (rs : list (tab_args * string)) (st : state) : state :=
  match rs with
  | [] => st
  | (a, stamp) :: rs' => register_all rs' (snd (bbc_tab a stamp st))
  end.

(** *** Notions the properties are stated with *)

(** An element without its two mutable flags. *)
Definition skeleton (e : element) : element := set_active false (set_shown false e).

(** [frame st st']: the script moved, created or removed nothing between
    the two states; only visibility and the active marker may differ. *)
Definition frame (st st' : state) : Prop :=
  map skeleton (elems st') = map skeleton (elems st)
  /\ row st' = row st
  /\ next_nid st' = next_nid st
  /\ length (editors st') = length (editors st).

(** Whether the element in position [p] is displayed. *)
Definition vis (st : state) (p : nat) : bool :=
  match elems st !! p with
  | Some e => shown e
  | None => false
  end.

Definition nid_at (st : state) (p : nat) : option nat := nid <$> elems st !! p.

(** A header of the row that is not a built-in one. *)
Definition custom (st : state) (j : nat) : bool :=
  match attr_id j st with
  | Some id => negb (is_builtin id)
  | None => false
  end.

(** The content panel of the header in position [j]: the element its
    selector names, for a selector answered by [getElementById]. *)
Definition panel_of (st : state) (j : nat) : option nat :=
  id ← attr_id j st;
  x ← quick_id (selector_of (Some id));
  getElementById x (elems st).

(** The panels of the custom headers of the row, in row order. *)
Definition custom_panels (st : state) : list nat :=
  omap (panel_of st) (List.filter (custom st) (row_indices st)).


Definition editors_all (b : bool) (st : state) : Prop :=
  Forall (eq b) (editors st).

(** A header is in order when it has an [id] attribute and, unless it is
    built-in, its panel is in the document. *)
Definition header_ok (st : state) (j : nat) : bool :=
  match attr_id j st with
  | Some id => is_builtin id || bool_decide (is_Some (panel_of st j))
  | None => false
  end.

(** The row as the data model has it: every header in order, and no two
    custom headers with the same panel. *)
Definition wf (st : state) : bool :=
  forallb (header_ok st) (row_indices st) && bool_decide (NoDup (custom_panels st)).

(** A header a click can be made on so that a handler of the script runs. *)
Definition clickable (st : state) (a : nat) : Prop :=
  a ∈ row_indices st /\ exists e, elems st !! a = Some e /\ handlers e <> [].

(** *** What is logged *)

(** The callback of kind [k] a handler would call, with its [this]. *)
Definition callback_of (k : cbkind) (c : closure) : option (callback * this_t) :=
  ev ← c_events c;
  fn ← (match k with OnShow => ev_show ev | OnHide => ev_hide ev end);
  Some (fn, match ev_context ev with Some ctx => ThisContext ctx | None => ThisEvents end).

(** The events a handler's call of its callback of kind [k] adds. *)
Definition fired (k : cbkind) (c : closure) : list event :=
  match callback_of k c with
  | Some (fn, this) => [EvCall k fn this (c_tab c) (c_content c)]
  | None => []
  end.




(** [log_grows st st']: the log of [st'] is that of [st] with more at
    its end. *)
Definition log_grows (st st' : state) : Prop :=
  exists t, log st' = log st ++ t.

(** What one handler logs at the header in position [j] of a row in
    order, [a] being the clicked header. *)
Definition entry_trace (c : closure) (st : state) (a j : nat) : list event :=
  match attr_id j st with
  | None => []
  | Some id =>
      if is_builtin id then [EvEditors false]
      else if decide (attr_id a st = Some id) then []
      else
        match panel_of st j with
        | Some p => fired OnHide c ++ [EvDisplay false (omap (nid_at st) [p])]
        | None => []
        end
  end.

(** What it logs after the loop, for the clicked header. *)
Definition final_trace (c : closure) (st : state) (a : nat) : list event :=
  match attr_id a st with
  | None => []
  | Some id =>
      if is_builtin id then [EvEditors true]
      else
        match panel_of st a with
        | Some p => EvConsole :: fired OnShow c ++ [EvDisplay true (omap (nid_at st) [p])]
        | None => []
        end
  end.

Definition click_trace (c : closure) (st : state) (a : nat) : list event :=
  EvPreventDefault
  :: flat_map (entry_trace c st a) (row_indices st) ++ final_trace c st a.

(** *** How a run changes the state *)

(** [respects R m]: whatever [m] does, and however it ends, the state it
    leaves is related by [R] to the one it started in. *)
Definition respects {A : Type} (R : state -> state -> Prop) (m : M A) : Prop :=
  forall st, R st (snd (m st)).

Ltac munfold :=
  unfold bind, ret, throw, get, modify, emit in *; simpl in *.

(** The state in which the handler's loop starts: the click's default
    action is cancelled and the clicked header is the active one. *)
Definition prelude (a : nat) (st : state) : state :=
  snd (activate a (snd (emit EvPreventDefault st))).

(** [hides_only st st']: nothing hidden in [st] is displayed in [st']. *)
Definition hides_only (st st' : state) : Prop :=
  forall p, vis st' p = true -> vis st p = true.

(** [shows_only st st' a]: in [st'], among the panels of the custom
    headers of [st], the one of header [a] is displayed and no other;
    and the native editor surface is displayed when [a] is built-in. *)
Definition shows_only (st st' : state) (a : nat) : Prop :=
  (forall j p, j ∈ row_indices st -> custom st j = true -> panel_of st j = Some p ->
     vis st' p = bool_decide (j = a))
  /\ (custom st a = false -> editors_all true st').

(** [editors_stay_hidden st st']: a native editor surface that is hidden
    in [st] is still hidden in [st']. *)
Definition editors_stay_hidden (st st' : state) : Prop :=
  editors_all false st -> editors_all false st'.


(** *** What registrations create *)

(** The identifier a registration uses. *)
Definition used_id (a : tab_args) (stamp : string) : string :=
  if String.eqb (a_id a) "" then stamp else a_id a.

(** The handler a registration binds when it starts in state [st]. *)
Definition new_handler (a : tab_args) (st : state) : closure :=
  {| c_events := a_events a; c_tab := next_nid st; c_content := S (next_nid st) |}.

(** The header and the panel a registration creates, as nodes [n]. *)
Definition new_tab (a : tab_args) (stamp : string) (n : nat) : element :=
  from_html (tab_markup (used_id a stamp) (a_title a)) n.

Definition new_panel (a : tab_args) (stamp : string) (n : nat) : element :=
  set_shown false
    (set_style (match a_css a with Some c => c | None => default_css end)
       (from_html (panel_markup (used_id a stamp) (a_content a)) n)).

(** An element after the handlers [cs] were bound to it one by one. *)
Definition with_handlers (cs : list closure) (e : element) : element :=
  foldl (fun e' c => add_handler c e') e cs.

(** The handlers the registrations [rs] bind, the first one creating
    nodes [base] and [base + 1], the next one the two nodes after. *)
Fixpoint closures_of (rs : list (tab_args * string)) (base : nat) : list closure :=
  match rs with
  | [] => []
  | (a, _) :: rs' =>
      {| c_events := a_events a; c_tab := base; c_content := S base |}
      :: closures_of rs' (S (S base))
  end.

(** The identifiers given to the registrations [rs]. *)
Definition ids_of (rs : list (tab_args * string)) : list string :=
  map (fun r => a_id (fst r)) rs.

(** Text that markup leaves as it is inside a quoted attribute value: no
    apostrophe, ampersand, angle bracket, NUL or carriage return. *)
Definition plain_char (c : ascii) : bool :=
  negb (Ascii.eqb c "'"%char) && negb (Ascii.eqb c "&"%char)
  && negb (Ascii.eqb c "<"%char) && negb (Ascii.eqb c ">"%char)
  && negb (Nat.eqb (nat_of_ascii c) 0) && negb (Nat.eqb (nat_of_ascii c) 13).

Definition plain_text (s : string) : bool := JsString.all_chars plain_char s.

(** An identifier made of word characters and hyphens that does not
    contain [menu-item-]. *)
Definition simple_id (id : string) : bool :=
  negb (String.eqb id "")
  && JsString.all_chars JsString.is_word_or_dash id
  && negb (JsString.contains "menu-item-" id).

(** Markup that adds nothing the script can meet: text, and the tags
    [p], [b], [i], [em], [strong], [span] and [br] written without
    attributes. Whatever the browser builds from it has no [id], no
    class, no list item, no script, and ends no element that was open
    before it. *)
Definition inert_tags : list string :=
  ["<p>"; "</p>"; "<b>"; "</b>"; "<i>"; "</i>"; "<em>"; "</em>";
   "<strong>"; "</strong>"; "<span>"; "</span>"; "<br>"].

Fixpoint inert (s : string) : bool :=
  match s with
  | EmptyString => true
  | String c s' =>
      (negb (Ascii.eqb c "<") || existsb (fun t => String.prefix t s) inert_tags)
      && inert s'
  end.

(** A title and a content for which the markup of a registration is
    what [from_html] reads it as: one header, one panel, and nothing
    else the script can meet. *)
Definition inert_markup (a : tab_args) : bool :=
  inert (a_title a) && inert (a_content a).

(** The same with an identifier, given or taken from the clock, that is
    plain text, so that it stays inside its attribute. *)
Definition well_formed_markup (r : tab_args * string) : bool :=
  inert_markup (fst r) && plain_text (used_id (fst r) (snd r)).

(** The page after two registrations on [platform_row]: panels [a] and
    [b] in positions 0 and 1, then the row: the built-in headers in
    positions 2 and 3, the headers of [a] and [b] in positions 4 and 5. *)
Definition two_tabs : state :=
  register_all [(tab_a, "1"); (tab_b, "2")] platform_row.

(** *** The claims the code does not meet, as they are worded *)

(** C1 as worded, for the tabs registered by [rs] on the row [(s, n)] of
    [st] (panels in positions [s + j], headers in positions
    [s + length rs + n + j]): after a click on the header of a registered
    tab, of the panels of the registered tabs that tab's panel is
    displayed and no other. *)
Definition clicked_tab_is_shown (rs : list (tab_args * string)) (st : state) : Prop :=
  forall s n j j',
    row st = Some (s, n) -> j < length rs -> j' < length rs ->
    vis (snd (click (s + length rs + n + j) (register_all rs st))) (s + j')
    = bool_decide (j' = j).


(** C3 as worded: the hide callback is passed the header being looked at
    (node [nh]) and that header's panel (node [np]), then the panel is
    hidden. *)
Definition hide_passes_looked_at_header (c : closure) (a : nat) (st : state) : Prop :=
  forall st' j id x p nh np fn this,
    tab_click c a st = (Ok tt, st') ->
    j ∈ row_indices st ->
    attr_id j st = Some id -> is_builtin id = false -> attr_id a st <> Some id ->
    quick_id (selector_of (Some id)) = Some x ->
    getElementById x (elems st) = Some p ->
    nid_at st j = Some nh -> nid_at st p = Some np ->
    callback_of OnHide c = Some (fn, this) ->
    exists t1 t2,
      log st' = log st ++ t1 ++ [EvCall OnHide fn this nh np; EvDisplay false [np]] ++ t2.

(** C7 as worded, for a registration in a document that has the row:
    whatever the identifier, the new header has id [menu-item-<id>] and
    the returned panel, placed right before the row, has id [<id>] and is
    hidden. *)
Definition registration_keeps_id (a : tab_args) (stamp : string) (st : state) : Prop :=
  forall s n, row st = Some (s, n) -> s + n <= length (elems st) ->
  (exists h, elems (snd (bbc_tab a stamp st)) !! (S s + n) = Some h
     /\ eid h = Some ("menu-item-" +:+ a_id a))
  /\ elems (snd (bbc_tab a stamp st)) !! s = Some (fst (bbc_tab a stamp st))
  /\ eid (fst (bbc_tab a stamp st)) = Some (a_id a)
  /\ shown (fst (bbc_tab a stamp st)) = false.


(** A header is plain when it has an [id] attribute and, unless it is
    built-in, its selector is empty or is answered by [getElementById]
    (its panel may be missing); a row of plain headers never has the
    selector engine asked. *)
Definition header_plain (st : state) (j : nat) : bool :=
  match attr_id j st with
  | Some id =>
      is_builtin id
      || String.eqb (selector_of (Some id)) ""
      || bool_decide (is_Some (quick_id (selector_of (Some id))))
  | None => false
  end.

Definition row_plain (st : state) : bool :=
  forallb (header_plain st) (row_indices st).

(** *** Notions for what a click leaves and what it reports *)

(** [same_marks st st']: every element has the active marker it had. *)
Definition same_marks (st st' : state) : Prop :=
  map active (elems st') = map active (elems st).



(** A custom header that has its panel in the document. *)
Definition has_panel (st : state) (j : nat) : bool :=
  custom st j && bool_decide (is_Some (panel_of st j)).


(** Where the element that was in position [i] is after a registration
    on the row [(s, n)]: the new panel comes in before the row, the new
    header after it. *)
Definition moved (s n i : nat) : nat :=
  if (i <? s)%nat then i else if (i <? s + n)%nat then S i else S (S i).

(** *** [yootil.create.page]: the document title and the content area *)

(** Regular expression objects, [new RegExp(source, flags)], which
    raises a syntax error for a source it cannot read, and
    [str.match(re)] as a truth value (for an expression that is not
    sticky, or whose [lastIndex] is 0). *)
Variable regexp : Type.
Variable new_RegExp : string -> string -> result regexp.
Variable str_match : string -> regexp -> bool.

(** The [pattern] argument: a string or a [RegExp] object. *)
Inductive pattern_t : Type :=
| PatString (s : string)
| PatRegExp (r : regexp).

(** A [title] given to [page]: [null] or a string. *)
Inductive title_t : Type :=
| TitleNull
| TitleString (s : string).

(** The argument of [page], for a pattern that is [null], a string or a
    [RegExp], a title that is [null] or a string and a boolean
    [hide_content]; [None] is a member left out (or [undefined]), which
    takes its default ([null], the empty string and [true]). *)
Record page_args : Type := {
  p_pattern : option pattern_t;
  p_title : option title_t;
  p_hide_content : option bool }.

(** What [page] reads and writes: [location.href], the text of the
    [title] element of the document (none when it has no such element),
    whether the document has a [head], and the display state of each
    child of [#content] (none when the document has no such element). *)
Record site : Type := {
  href : string;
  title_element : option string;
  has_head : bool;
  content_children : list bool }.

(** ASCII whitespace: tab, line feed, form feed, carriage return, space. *)
Definition is_space (c : ascii) : bool :=
  existsb (Nat.eqb (nat_of_ascii c)) [9; 10; 12; 13; 32].

Fixpoint strip_leading (s : string) : string :=
  match s with
  | EmptyString => EmptyString
  | String c s' => if is_space c then strip_leading s' else s
  end.

(** The rest of a text after its leading whitespace: each later run of
    whitespace becomes one space ([pending] says that a run has been
    read and its space not yet written), and a run at the end is left
    out. *)
Fixpoint collapse (pending : bool) (s : string) : string :=
  match s with
  | EmptyString => EmptyString
  | String c s' =>
      if is_space c then collapse true s'
      else if pending then String " " (String c (collapse false s'))
      else String c (collapse false s')
  end.

(** Strip and collapse ASCII whitespace. *)
Definition strip_collapse (s : string) : string := collapse false (strip_leading s).

(** Reading [document.title]: the text of the [title] element, with its
    whitespace stripped and collapsed; the empty string without one. *)
Definition get_title (d : site) : string :=
  match title_element d with
  | Some t => strip_collapse t
  | None => ""
  end.

(** Writing [document.title]: the text of the [title] element is
    replaced; a document without one is given one in its [head], and
    one without a [head] either is left as it is. *)
Definition set_title (v : string) (d : site) : site :=
  match title_element d with
  | Some _ =>
      {| href := href d; title_element := Some v; has_head := has_head d;
         content_children := content_children d |}
  | None =>
      if has_head d
      then {| href := href d; title_element := Some v; has_head := true;
              content_children := content_children d |}
      else d
  end.

(** [$("#content").children().hide()]. *)
Definition hide_children (d : site) : site :=
  {| href := href d; title_element := title_element d; has_head := has_head d;
     content_children := map (fun _ => false) (content_children d) |}.

(** [!pattern]: nothing given, or the empty string. *)
Definition no_pattern (p : option pattern_t) : bool :=
  match p with
  | None => true
  | Some (PatString s) => String.eqb s ""
  | Some (PatRegExp _) => false
  end.

(** [(pattern.constructor == RegExp)? pattern : new RegExp("\/\?" + pattern, "i")]:
    the string literal is the two characters [/?]. *)
Definition reg_of (p : pattern_t) : result regexp :=
  match p with
  | PatRegExp r => Ok r
  | PatString s => new_RegExp ("/?" +:+ s) "i"
  end.

(** [yootil.create.page({pattern, title, hide_content})]; the value
    returned is the class itself. Reading [title.length] of a [null]
    title raises a [TypeError], before anything is changed;
    [document.title += " - " + title] reads the title and writes it. *)
Definition page (a : page_args) (d : site) : result unit * site :=
  if no_pattern (p_pattern a) then (Ok tt, d)
  else
    match p_pattern a with
    | None => (Ok tt, d)
    | Some pat =>
        match reg_of pat with
        | Throw e => (Throw e, d)
        | Ok reg =>
            if str_match (href d) reg then
              match default (TitleString "") (p_title a) with
              | TitleNull => (Throw TypeError, d)
              | TitleString title =>
                  let d1 :=
                    if negb (String.eqb title "")
                    then set_title (get_title d +:+ " - " +:+ title) d
                    else d in
                  let d2 := if default true (p_hide_content a) then hide_children d1 else d1 in
                  (Ok tt, d2)
              end
            else (Ok tt, d)
        end
    end.

(** How many hyphens a text has. *)
Fixpoint hyphens (s : string) : nat :=
  match s with
  | EmptyString => 0
  | String c s' => (if Ascii.eqb c "-" then 1 else 0) + hyphens s'
  end.


(** A call of [page] for the shop of a forum, on one of its pages. *)
Definition shop_args : page_args :=
  {| p_pattern := Some (PatString "shop"); p_title := Some (TitleString "Shop");
     p_hide_content := None |}.

(** A page of a forum, at the address of its shop; the text of its
    [title] element was written over several lines. *)
Definition forum_page : site :=
  {| href := "https://forum.example/shop/";
     title_element := Some (String "010" "  Forum" +:+ String "010" "");
     has_head := true;
     content_children := [true; false] |}.


(** The page after the registrations of [tab_a] and [tab_twin], both
    under the identifier [a]: their panels in positions 0 and 1, the
    built-in headers in positions 2 and 3, their headers in 4 and 5. *)
Definition twin_page : state := register_all [(tab_a, "1"); (tab_twin, "2")] platform_row.

(** ** Properties *)

(** ** Running the script: general facts *)

Lemma bind_ok {A B : Type} (m : M A) (k : A -> M B) st a st' :
  m st = (Ok a, st') -> bind m k st = k a st'.
Proof. intros E. unfold bind. now rewrite E. Qed.

Lemma bind_ok_inv {A B : Type} (m : M A) (k : A -> M B) st b st2 :
  bind m k st = (Ok b, st2) ->
  exists a st1, m st = (Ok a, st1) /\ k a st1 = (Ok b, st2).
Proof.
  unfold bind. destruct (m st) as [[a|e] st1]; intros E.
  - now exists a, st1.
  - discriminate.
Qed.

Lemma respects_ret {A : Type} R (a : A) : Reflexive R -> respects R (ret a).
Proof. intros HR st. apply HR. Qed.

Lemma respects_throw {A : Type} R e : Reflexive R -> respects R (@throw A e).
Proof. intros HR st. apply HR. Qed.

Lemma respects_get R : Reflexive R -> respects R get.
Proof. intros HR st. apply HR. Qed.

Lemma respects_bind {A B : Type} R (m : M A) (k : A -> M B) :
  Transitive R -> respects R m -> (forall a, respects R (k a)) ->
  respects R (bind m k).
Proof.
  intros HT Hm Hk st. unfold bind.
  specialize (Hm st). destruct (m st) as [[a|e] st1]; simpl in *.
  - etransitivity; [exact Hm | apply Hk].
  - exact Hm.
Qed.

Lemma respects_for_each R js body :
  PreOrder R -> (forall j, j ∈ js -> respects R (body j)) ->
  respects R (for_each js body).
Proof.
  intros HR. induction js as [|j js IH]; intros Hb; simpl.
  - apply respects_ret, HR.
  - apply respects_bind; [apply HR | apply Hb; left |].
    intros _. apply IH. intros j' Hj'. apply Hb. now right.
Qed.

Lemma jq_state sel st : snd (jq sel st) = st.
Proof.
  unfold jq. destruct (String.eqb sel ""); [reflexivity|].
  destruct (quick_id sel); [reflexivity|].
  now destruct (sizzle sel (elems st)).
Qed.

Lemma respects_jq R sel : Reflexive R -> respects R (jq sel).
Proof. intros HR st. rewrite jq_state. apply HR. Qed.

Lemma quick_id_nonempty sel x : quick_id sel = Some x -> String.eqb sel "" = false.
Proof. destruct sel; [discriminate | reflexivity]. Qed.

Lemma jq_quick sel x st :
  quick_id sel = Some x ->
  jq sel st = (Ok (option_list (getElementById x (elems st))), st).
Proof.
  intros Hq. unfold jq. rewrite (quick_id_nonempty _ _ Hq). now rewrite Hq.
Qed.

Lemma respects_fire_emit R k c :
  Reflexive R -> (forall ev, respects R (emit ev)) -> respects R (fire k c).
Proof.
  intros HR He. unfold fire.
  destruct (c_events c) as [ev|]; [|now apply respects_ret].
  destruct (match k with OnShow => ev_show ev | OnHide => ev_hide ev end);
    [apply He | now apply respects_ret].
Qed.

Lemma respects_each_body R c a j :
  PreOrder R ->
  respects R (editors_display false) ->
  respects R (fire OnHide c) ->
  (forall ps, respects R (display false ps)) ->
  respects R (each_body c a j).
Proof.
  intros HR Hed Hf Hd. unfold each_body.
  apply respects_bind; [apply HR | apply respects_get, HR |]. intros st0.
  destruct (attr_id j st0) as [id|]; [|apply respects_throw, HR].
  destruct (is_builtin id); [exact Hed|].
  destruct (decide (attr_id a st0 = Some id)); [apply respects_ret, HR|].
  apply respects_bind; [apply HR | apply respects_jq, HR |].
  intros [|p ps]; [apply respects_ret, HR|].
  apply respects_bind; [apply HR | exact Hf |]. intros _.
  apply respects_bind; [apply HR | apply respects_jq, HR | apply Hd].
Qed.

Lemma respects_show_active R c a :
  PreOrder R ->
  respects R (editors_display true) ->
  respects R (emit EvConsole) ->
  respects R (fire OnShow c) ->
  (forall ps, respects R (display true ps)) ->
  respects R (show_active c a).
Proof.
  intros HR Hed Hc Hf Hd. unfold show_active.
  apply respects_bind; [apply HR | apply respects_get, HR |]. intros st0.
  destruct (attr_id a st0) as [id|]; [|apply respects_throw, HR].
  destruct (is_builtin id); [exact Hed|].
  apply respects_bind; [apply HR | apply respects_jq, HR |].
  intros [|p ps]; [apply respects_ret, HR|].
  apply respects_bind; [apply HR | exact Hc |]. intros _.
  apply respects_bind; [apply HR | exact Hf |]. intros _.
  apply respects_bind; [apply HR | apply respects_jq, HR | apply Hd].
Qed.

Lemma respects_loop R c a :
  PreOrder R ->
  respects R (editors_display false) ->
  respects R (fire OnHide c) ->
  (forall ps, respects R (display false ps)) ->
  respects R (let! st := get in for_each (row_indices st) (each_body c a)).
Proof.
  intros HR Hed Hf Hd.
  apply respects_bind; [apply HR | apply respects_get, HR |]. intros st0.
  apply respects_for_each; [exact HR|]. intros j _.
  now apply respects_each_body.
Qed.

Lemma respects_tab_click R c a :
  PreOrder R ->
  respects R (emit EvPreventDefault) ->
  respects R (emit EvConsole) ->
  respects R (activate a) ->
  (forall b, respects R (editors_display b)) ->
  (forall k, respects R (fire k c)) ->
  (forall b ps, respects R (display b ps)) ->
  respects R (tab_click c a).
Proof.
  intros HR Hp Hc Ha Hed Hf Hd. unfold tab_click.
  apply respects_bind; [apply HR | exact Hp |]. intros _.
  apply respects_bind; [apply HR | exact Ha |]. intros _.
  apply respects_bind; [apply HR | now apply respects_loop |]. intros _.
  now apply respects_show_active.
Qed.

(** ** What a handler leaves in place *)

Lemma frame_refl st : frame st st.
Proof. now repeat split. Qed.

Lemma frame_trans st1 st2 st3 : frame st1 st2 -> frame st2 st3 -> frame st1 st3.
Proof.
  intros (E1 & R1 & N1 & L1) (E2 & R2 & N2 & L2).
  repeat split; congruence.
Qed.

Lemma frame_preorder : PreOrder frame.
Proof. split; [exact frame_refl | exact frame_trans]. Qed.

Lemma skeleton_set_shown b e : skeleton (set_shown b e) = skeleton e.
Proof. reflexivity. Qed.

Lemma skeleton_set_active b e : skeleton (set_active b e) = skeleton e.
Proof. reflexivity. Qed.

Lemma map_skeleton_alter (f : element -> element) i l :
  (forall e, skeleton (f e) = skeleton e) ->
  map skeleton (alter f i l) = map skeleton l.
Proof.
  intros Hf. revert i. induction l as [|e l IH]; intros [|i]; simpl; trivial.
  - now rewrite Hf.
  - f_equal. apply IH.
Qed.

Lemma map_skeleton_foldr_alter (f : element -> element) ps l :
  (forall e, skeleton (f e) = skeleton e) ->
  map skeleton (foldr (alter f) l ps) = map skeleton l.
Proof.
  intros Hf. induction ps as [|p ps IH]; [reflexivity|].
  cbn [foldr]. now rewrite map_skeleton_alter.
Qed.

Lemma map_skeleton_imap (f : nat -> element -> element) l :
  (forall i e, skeleton (f i e) = skeleton e) ->
  map skeleton (imap f l) = map skeleton l.
Proof.
  intros Hf. revert f Hf. induction l as [|e l IH]; intros f Hf; simpl; trivial.
  rewrite Hf. f_equal. apply IH. intros i e'. apply Hf.
Qed.

Lemma frame_emit ev : respects frame (emit ev).
Proof. intros st. now repeat split. Qed.

Lemma frame_display b ps : respects frame (display b ps).
Proof.
  intros st. repeat split; simpl.
  apply map_skeleton_foldr_alter. intros e. apply skeleton_set_shown.
Qed.

Lemma frame_editors_display b : respects frame (editors_display b).
Proof. intros st. repeat split; simpl. apply length_map. Qed.

Lemma frame_activate a : respects frame (activate a).
Proof.
  intros st. repeat split; simpl.
  rewrite map_skeleton_alter by (intros; apply skeleton_set_active).
  destruct (row st) as [[s n]|]; trivial.
  apply map_skeleton_imap. intros i e. now destruct (in_row s n i).
Qed.

Lemma frame_fire k c : respects frame (fire k c).
Proof. apply respects_fire_emit; [exact frame_refl | exact frame_emit]. Qed.

Lemma frame_each_body c a j : respects frame (each_body c a j).
Proof.
  apply respects_each_body;
    auto using frame_preorder, frame_editors_display, frame_fire, frame_display.
Qed.

Lemma frame_show_active c a : respects frame (show_active c a).
Proof.
  apply respects_show_active;
    auto using frame_preorder, frame_editors_display, frame_fire, frame_display, frame_emit.
Qed.

Lemma frame_tab_click c a : respects frame (tab_click c a).
Proof.
  apply respects_tab_click;
    auto using frame_preorder, frame_editors_display, frame_fire, frame_display,
      frame_emit, frame_activate.
Qed.

(** What is the same in two states related by [frame]. *)

Lemma frame_lookup st st' i :
  frame st st' -> skeleton <$> elems st' !! i = skeleton <$> elems st !! i.
Proof.
  intros (E & _). rewrite <- !list_lookup_fmap.
  change (map skeleton (elems st') !! i = map skeleton (elems st) !! i).
  now rewrite E.
Qed.

Lemma frame_attr_id st st' j : frame st st' -> attr_id j st' = attr_id j st.
Proof.
  intros F. pose proof (frame_lookup _ _ j F) as E. unfold attr_id.
  destruct (elems st' !! j) as [e'|], (elems st !! j) as [e|]; simpl in *; try discriminate; trivial.
  injection E as E. unfold skeleton, set_active, set_shown in E. simpl in E.
  now inversion E.
Qed.

Lemma frame_nid_at st st' p : frame st st' -> nid_at st' p = nid_at st p.
Proof.
  intros F. pose proof (frame_lookup _ _ p F) as E. unfold nid_at.
  destruct (elems st' !! p) as [e'|], (elems st !! p) as [e|]; simpl in *; try discriminate; trivial.
  injection E as E. unfold skeleton, set_active, set_shown in E. simpl in E.
  now inversion E.
Qed.

Lemma frame_handlers st st' a e :
  frame st st' -> elems st !! a = Some e ->
  exists e', elems st' !! a = Some e' /\ handlers e' = handlers e.
Proof.
  intros F Ha. pose proof (frame_lookup _ _ a F) as E. rewrite Ha in E.
  destruct (elems st' !! a) as [e'|]; simpl in *; try discriminate.
  exists e'. split; trivial.
  injection E as E. unfold skeleton, set_active, set_shown in E. simpl in E.
  now inversion E.
Qed.

Lemma find_id_skeleton x l l' i :
  map skeleton l' = map skeleton l -> find_id x i l' = find_id x i l.
Proof.
  revert l' i. induction l as [|e l IH]; intros [|e' l'] i E; simpl in *; try discriminate; trivial.
  injection E as E1 E2.
  assert (eid e' = eid e) as ->.
  { unfold skeleton, set_active, set_shown in E1. simpl in E1. now inversion E1. }
  destruct (decide (eid e = Some x)); trivial. now apply IH.
Qed.

Lemma frame_getElementById st st' x :
  frame st st' -> getElementById x (elems st') = getElementById x (elems st).
Proof. intros (E & _). now apply find_id_skeleton. Qed.

Lemma frame_row_indices st st' : frame st st' -> row_indices st' = row_indices st.
Proof. intros (_ & E & _). unfold row_indices. now rewrite E. Qed.

Lemma frame_panel_of st st' j : frame st st' -> panel_of st' j = panel_of st j.
Proof.
  intros F. unfold panel_of. rewrite (frame_attr_id _ _ j F).
  apply option_bind_ext; [|reflexivity]. intros id.
  apply option_bind_ext; [|reflexivity]. intros x.
  now apply frame_getElementById.
Qed.

Lemma frame_custom st st' j : frame st st' -> custom st' j = custom st j.
Proof. intros F. unfold custom. now rewrite (frame_attr_id _ _ j F). Qed.

Lemma frame_custom_panels st st' : frame st st' -> custom_panels st' = custom_panels st.
Proof.
  intros F. unfold custom_panels. rewrite (frame_row_indices _ _ F).
  induction (row_indices st) as [|j js IH]; simpl; trivial.
  rewrite (frame_custom _ _ j F). destruct (custom st j); [|exact IH].
  simpl. rewrite (frame_panel_of _ _ j F).
  destruct (panel_of st j); [f_equal|]; exact IH.
Qed.

Lemma frame_header_ok st st' j : frame st st' -> header_ok st' j = header_ok st j.
Proof.
  intros F. unfold header_ok.
  now rewrite (frame_attr_id _ _ j F), (frame_panel_of _ _ j F).
Qed.

Lemma frame_wf st st' : frame st st' -> wf st' = wf st.
Proof.
  intros F. unfold wf.
  rewrite (frame_row_indices _ _ F), (frame_custom_panels _ _ F). f_equal.
  induction (row_indices st) as [|j js IH]; simpl; trivial.
  now rewrite (frame_header_ok _ _ j F), IH.
Qed.

(** ** The handler, one header at a time *)

Lemma with_log_nil st : with_log [] st = st.
Proof. destruct st. unfold with_log. simpl. now rewrite app_nil_r. Qed.

Lemma fire_eq k c st : fire k c st = (Ok tt, with_log (fired k c) st).
Proof.
  unfold fire, fired, callback_of.
  destruct (c_events c) as [ev|]; simpl; [|now rewrite with_log_nil].
  destruct (match k with OnShow => ev_show ev | OnHide => ev_hide ev end); simpl;
    [reflexivity | now rewrite with_log_nil].
Qed.

Lemma bind_fst_throw {A B : Type} (m : M A) (k : A -> M B) st e :
  fst (m st) = Throw e -> fst (bind m k st) = Throw e.
Proof. unfold bind. destruct (m st) as [[a|e'] st']; simpl; congruence. Qed.

Lemma find_id_spec x l i p :
  find_id x i l = Some p ->
  exists e, l !! (p - i) = Some e /\ eid e = Some x /\ i <= p.
Proof.
  revert i. induction l as [|e l IH]; intros i H; simpl in H; [discriminate|].
  destruct (decide (eid e = Some x)) as [He|He].
  - injection H as <-. exists e. rewrite Nat.sub_diag. auto.
  - destruct (IH _ H) as (e' & Hl & He' & Hle). exists e'.
    replace (p - i) with (S (p - S i)) by lia. simpl. repeat split; trivial. lia.
Qed.

Lemma getElementById_spec x l p :
  getElementById x l = Some p -> exists e, l !! p = Some e /\ eid e = Some x.
Proof.
  intros H. destruct (find_id_spec _ _ _ _ H) as (e & Hl & He & _).
  rewrite Nat.sub_0_r in Hl. eauto.
Qed.

Lemma each_body_no_id c a j st :
  attr_id j st = None -> each_body c a j st = (Throw TypeError, st).
Proof. intros H. unfold each_body. munfold. now rewrite H. Qed.

Lemma each_body_builtin c a j st id :
  attr_id j st = Some id -> is_builtin id = true ->
  each_body c a j st = (Ok tt, with_log [EvEditors false] (with_editors false st)).
Proof. intros H Hb. unfold each_body. munfold. now rewrite H, Hb. Qed.

Lemma each_body_active c a j st id :
  attr_id j st = Some id -> is_builtin id = false -> attr_id a st = Some id ->
  each_body c a j st = (Ok tt, st).
Proof.
  intros H Hb Ha. unfold each_body. munfold. rewrite H, Hb.
  now destruct (decide (attr_id a st = Some id)).
Qed.

Lemma each_body_missing c a j st id :
  attr_id j st = Some id -> is_builtin id = false ->
  jq (selector_of (Some id)) st = (Ok [], st) ->
  each_body c a j st = (Ok tt, st).
Proof.
  intros H Hb Hq. unfold each_body. unfold bind at 1. unfold get.
  rewrite H, Hb. destruct (decide (attr_id a st = Some id)); [reflexivity|].
  now rewrite (bind_ok _ _ _ _ _ Hq).
Qed.

Lemma each_body_hide c a j st id x p :
  attr_id j st = Some id -> is_builtin id = false -> attr_id a st <> Some id ->
  quick_id (selector_of (Some id)) = Some x ->
  getElementById x (elems st) = Some p ->
  each_body c a j st =
  (Ok tt,
   with_log (fired OnHide c ++ [EvDisplay false (omap (nid_at st) [p])])
     (with_elems (alter (set_shown false) p) st)).
Proof.
  intros H Hb Ha Hq Hp. unfold each_body. unfold bind at 1. unfold get.
  rewrite H, Hb. destruct (decide (attr_id a st = Some id)); [contradiction|].
  rewrite (bind_ok _ _ _ _ _ (jq_quick _ _ st Hq)). rewrite Hp. change (option_list (Some p)) with [p]. cbv iota.
  rewrite (bind_ok _ _ _ _ _ (fire_eq _ _ _)).
  rewrite (bind_ok _ _ _ _ _ (jq_quick _ _ _ Hq)). simpl elems. rewrite Hp.
  change (option_list (Some p)) with [p]. unfold display, modify. cbn [foldr].
  f_equal. unfold with_log, with_elems. simpl. now rewrite <- app_assoc.
Qed.

Lemma show_active_builtin c a st id :
  attr_id a st = Some id -> is_builtin id = true ->
  show_active c a st = (Ok tt, with_log [EvEditors true] (with_editors true st)).
Proof. intros H Hb. unfold show_active. munfold. now rewrite H, Hb. Qed.

Lemma show_active_missing c a st id :
  attr_id a st = Some id -> is_builtin id = false ->
  jq (selector_of (Some id)) st = (Ok [], st) ->
  show_active c a st = (Ok tt, st).
Proof.
  intros H Hb Hq. unfold show_active. unfold bind at 1. unfold get.
  rewrite H, Hb. now rewrite (bind_ok _ _ _ _ _ Hq).
Qed.

Lemma show_active_show c a st id x p :
  attr_id a st = Some id -> is_builtin id = false ->
  quick_id (selector_of (Some id)) = Some x ->
  getElementById x (elems st) = Some p ->
  show_active c a st =
  (Ok tt,
   with_log (EvConsole :: fired OnShow c ++ [EvDisplay true (omap (nid_at st) [p])])
     (with_elems (alter (set_shown true) p) st)).
Proof.
  intros H Hb Hq Hp. unfold show_active. unfold bind at 1. unfold get.
  rewrite H, Hb.
  rewrite (bind_ok _ _ _ _ _ (jq_quick _ _ st Hq)). rewrite Hp. change (option_list (Some p)) with [p]. cbv iota.
  unfold emit at 1. unfold modify at 1. unfold bind at 1.
  rewrite (bind_ok _ _ _ _ _ (fire_eq _ _ _)).
  rewrite (bind_ok _ _ _ _ _ (jq_quick _ _ _ Hq)). simpl elems. rewrite Hp.
  change (option_list (Some p)) with [p]. unfold display, modify. cbn [foldr].
  f_equal. unfold with_log, with_elems, nid_at. simpl. f_equal.
  now rewrite <- !app_assoc.
Qed.

(** ** Loops over the headers *)

Lemma for_each_throws R js body j st :
  PreOrder R -> (forall j', respects R (body j')) -> j ∈ js ->
  (forall st', R st st' -> exists e, fst (body j st') = Throw e) ->
  exists e, fst (for_each js body st) = Throw e.
Proof.
  intros HR Hb. revert st. induction js as [|j' js IH]; intros st Hj Ht.
  - inversion Hj.
  - simpl. unfold bind. pose proof (Hb j' st) as Hst.
    destruct (body j' st) as [[[]|e] st1] eqn:E; simpl in *.
    + apply elem_of_cons in Hj as [->|Hj].
      * destruct (Ht st) as [e He]; [reflexivity|]. rewrite E in He. discriminate.
      * apply IH; trivial. intros st' Hst'. apply Ht. etransitivity; eassumption.
    + eauto.
Qed.

(** An invariant [I] kept by every iteration, and a fact [Q j] each
    iteration [j] establishes and no later one destroys. *)
Lemma for_each_inv_gen (I : state -> Prop) (Q : nat -> state -> Prop) js body :
  (forall j st1, j ∈ js -> I st1 ->
     fst (body j st1) = Ok tt /\ I (snd (body j st1)) /\ Q j (snd (body j st1))) ->
  (forall j j' st1, j' ∈ js -> I st1 -> Q j st1 -> Q j (snd (body j' st1))) ->
  forall seen st, I st -> (forall j, j ∈ seen -> Q j st) ->
  fst (for_each js body st) = Ok tt
  /\ I (snd (for_each js body st))
  /\ forall j, j ∈ seen ++ js -> Q j (snd (for_each js body st)).
Proof.
  induction js as [|a js IH]; intros Hstep Hstab seen st HI Hseen.
  - simpl. rewrite app_nil_r. auto.
  - simpl. unfold bind.
    destruct (Hstep a st) as (Hok & HI1 & HQ1); [left | trivial |].
    assert (forall j, j ∈ seen -> Q j (snd (body a st))) as Hseen1.
    { intros j Hj. apply Hstab; [left | trivial | now apply Hseen]. }
    destruct (body a st) as [[[]|e] st1]; simpl in *; [|discriminate].
    destruct (IH (fun j s Hj => Hstep j s (list_elem_of_further _ _ _ Hj))
                 (fun j j' s Hj => Hstab j j' s (list_elem_of_further _ _ _ Hj))
                 (seen ++ [a]) st1 HI1) as (Hok2 & HI2 & HQ2).
    { intros j Hj. apply elem_of_app in Hj as [Hj|Hj]; [now apply Hseen1|].
      apply list_elem_of_singleton in Hj as ->. exact HQ1. }
    repeat split; trivial. intros j Hj. apply HQ2.
    now rewrite <- app_assoc.
Qed.

Lemma for_each_inv (I : state -> Prop) (Q : nat -> state -> Prop) js body st :
  I st ->
  (forall j st1, j ∈ js -> I st1 ->
     fst (body j st1) = Ok tt /\ I (snd (body j st1)) /\ Q j (snd (body j st1))) ->
  (forall j j' st1, j' ∈ js -> I st1 -> Q j st1 -> Q j (snd (body j' st1))) ->
  fst (for_each js body st) = Ok tt
  /\ I (snd (for_each js body st))
  /\ forall j, j ∈ js -> Q j (snd (for_each js body st)).
Proof.
  intros HI Hstep Hstab.
  apply (for_each_inv_gen I Q js body Hstep Hstab [] st HI).
  intros j Hj. inversion Hj.
Qed.

Lemma for_each_app js1 js2 body st :
  for_each (js1 ++ js2) body st = (for_each js1 body ;; for_each js2 body) st.
Proof.
  revert st. induction js1 as [|j js1 IH]; intros st; [reflexivity|].
  simpl. unfold bind. destruct (body j st) as [[[]|e] st1]; [apply IH | reflexivity].
Qed.

(** ** The handler as a whole *)

Lemma tab_click_unfold c a st :
  tab_click c a st =
  (for_each (row_indices (prelude a st)) (each_body c a) ;; show_active c a) (prelude a st).
Proof. reflexivity. Qed.

Lemma frame_prelude a st : frame st (prelude a st).
Proof.
  unfold prelude. eapply frame_trans; [apply (frame_emit EvPreventDefault st)|].
  apply frame_activate.
Qed.

Lemma log_prelude a st : log (prelude a st) = log st ++ [EvPreventDefault].
Proof. reflexivity. Qed.

Lemma tab_click_throws_without_id c a st j e0 :
  j ∈ row_indices st -> elems st !! j = Some e0 -> eid e0 = None ->
  exists e, fst (tab_click c a st) = Throw e.
Proof.
  intros Hj He0 Hid. rewrite tab_click_unfold.
  pose proof (frame_prelude a st) as F.
  assert (attr_id j st = None) as Hnone by (unfold attr_id; now rewrite He0).
  destruct (for_each_throws frame (row_indices (prelude a st)) (each_body c a) j (prelude a st))
    as [e He].
  - exact frame_preorder.
  - intros j'. apply frame_each_body.
  - now rewrite (frame_row_indices _ _ F).
  - intros st' F'. exists TypeError. rewrite each_body_no_id; trivial.
    rewrite (frame_attr_id _ _ j F'), (frame_attr_id _ _ j F). exact Hnone.
  - exists e. now apply bind_fst_throw.
Qed.

(** C9. A header of the row that has no [id] attribute makes the handler
    end with an error, whichever header was clicked; so the handler ends
    without error only if every header of the row has an [id]. *)
Theorem header_without_id_throws c a st :
  (forall j e0, j ∈ row_indices st -> elems st !! j = Some e0 -> eid e0 = None ->
     exists e, fst (tab_click c a st) = Throw e)
  /\ (fst (tab_click c a st) = Ok tt ->
      forall j e0, j ∈ row_indices st -> elems st !! j = Some e0 -> is_Some (eid e0)).
Proof.
  split; [apply tab_click_throws_without_id|].
  intros Hok j e0 Hj He0. destruct (eid e0) as [id|] eqn:E; [eauto|].
  destruct (tab_click_throws_without_id c a st j e0 Hj He0 E) as [e He]. congruence.
Qed.

(** ** Visibility *)

Lemma hides_only_preorder : PreOrder hides_only.
Proof.
  split.
  - intros st p H. exact H.
  - intros s1 s2 s3 H12 H23 p H. apply H12, H23, H.
Qed.

Lemma vis_alter_eq b p st :
  p < length (elems st) -> vis (with_elems (alter (set_shown b) p) st) p = b.
Proof.
  intros Hp. unfold vis. simpl. rewrite list_lookup_alter_eq.
  destruct (lookup_lt_is_Some_2 _ _ Hp) as [e He]. now rewrite He.
Qed.

Lemma vis_alter_ne b p q st :
  p <> q -> vis (with_elems (alter (set_shown b) p) st) q = vis st q.
Proof. intros Hne. unfold vis. simpl. now rewrite list_lookup_alter_ne. Qed.

Lemma hides_only_emit ev : respects hides_only (emit ev).
Proof. intros st p H. exact H. Qed.

Lemma hides_only_editors b : respects hides_only (editors_display b).
Proof. intros st p H. exact H. Qed.

Lemma hides_only_fire k c : respects hides_only (fire k c).
Proof.
  apply respects_fire_emit; [apply hides_only_preorder | exact hides_only_emit].
Qed.

Lemma hides_only_display ps : respects hides_only (display false ps).
Proof.
  intros st p. unfold display, modify, vis. simpl.
  induction ps as [|q ps IH]; cbn [foldr]; trivial.
  destruct (decide (q = p)) as [->|Hne].
  - rewrite list_lookup_alter_eq.
    destruct (foldr (alter (set_shown false)) (elems st) ps !! p); simpl; congruence.
  - rewrite list_lookup_alter_ne by trivial. exact IH.
Qed.

Lemma hides_only_each_body c a j : respects hides_only (each_body c a j).
Proof.
  apply respects_each_body;
    auto using hides_only_preorder, hides_only_editors, hides_only_fire, hides_only_display.
Qed.

(** ** A row in order *)

Lemma wf_header st j :
  wf st = true -> j ∈ row_indices st ->
  exists id, attr_id j st = Some id
    /\ (is_builtin id = false ->
        exists x p, quick_id (selector_of (Some id)) = Some x
          /\ getElementById x (elems st) = Some p
          /\ panel_of st j = Some p).
Proof.
  unfold wf. intros H Hj. apply andb_prop in H as [H _].
  rewrite forallb_forall in H. specialize (H j). rewrite <- list_elem_of_In in H.
  specialize (H Hj). unfold header_ok in H.
  destruct (attr_id j st) as [id|] eqn:E; [|discriminate].
  exists id. split; trivial. intros Hb. rewrite Hb in H. simpl in H.
  apply bool_decide_eq_true in H as [p Hp]. pose proof Hp as Hp'.
  unfold panel_of in Hp'. apply bind_Some in Hp' as (id' & Hid & Hp').
  apply bind_Some in Hp' as (x & Hq & Hg).
  rewrite E in Hid. injection Hid as <-. eauto.
Qed.

Lemma omap_injective {A B : Type} (f : A -> option B) (l : list A) x y p :
  NoDup (omap f l) -> x ∈ l -> y ∈ l -> f x = Some p -> f y = Some p ->
  NoDup l -> x = y.
Proof.
  induction l as [|z l IH]; intros Hnd Hx Hy Hfx Hfy Hl; [inversion Hx|].
  apply NoDup_cons in Hl as [Hz Hl].
  assert (forall w, w ∈ l -> f w = Some p -> f z = Some p -> False) as Hclash.
  { intros w Hw Hfw Hfz. simpl in Hnd. rewrite Hfz in Hnd.
    apply NoDup_cons in Hnd as [Hnot _]. apply Hnot.
    apply list_elem_of_omap. eauto. }
  apply elem_of_cons in Hx as [->|Hx]; apply elem_of_cons in Hy as [->|Hy]; trivial.
  - exfalso. eauto.
  - exfalso. eauto.
  - apply IH; trivial. simpl in Hnd.
    destruct (f z); [now apply NoDup_cons in Hnd as [_ Hnd] | exact Hnd].
Qed.

Lemma NoDup_filter_bool {A : Type} (f : A -> bool) (l : list A) :
  NoDup l -> NoDup (List.filter f l).
Proof.
  induction 1 as [|x l Hx Hl IH]; simpl; [constructor|].
  destruct (f x); trivial. constructor; trivial.
  intros Hin. apply Hx. apply list_elem_of_In in Hin. apply filter_In in Hin as [Hin _].
  now apply list_elem_of_In.
Qed.

Lemma NoDup_row_indices st : NoDup (row_indices st).
Proof.
  unfold row_indices. destruct (row st) as [[s n]|]; [apply NoDup_seq | constructor].
Qed.

Lemma elem_of_filter_bool {A : Type} (f : A -> bool) (l : list A) x :
  x ∈ List.filter f l <-> x ∈ l /\ f x = true.
Proof. rewrite !list_elem_of_In. apply filter_In. Qed.

Lemma wf_injective st j j' p :
  wf st = true -> j ∈ row_indices st -> j' ∈ row_indices st ->
  custom st j = true -> custom st j' = true ->
  panel_of st j = Some p -> panel_of st j' = Some p -> j = j'.
Proof.
  unfold wf. intros H Hj Hj' Hc Hc' Hp Hp'. apply andb_prop in H as [_ H].
  apply bool_decide_eq_true in H. unfold custom_panels in H.
  eapply (omap_injective (panel_of st)); try eassumption.
  - now apply elem_of_filter_bool.
  - now apply elem_of_filter_bool.
  - apply NoDup_filter_bool, NoDup_row_indices.
Qed.

Lemma custom_spec st j id :
  attr_id j st = Some id -> custom st j = negb (is_builtin id).
Proof. intros H. unfold custom. now rewrite H. Qed.

Lemma panel_of_same_id st j j' :
  attr_id j st = attr_id j' st -> panel_of st j = panel_of st j'.
Proof. intros H. unfold panel_of. now rewrite H. Qed.

Lemma editors_stay_hidden_preorder : PreOrder editors_stay_hidden.
Proof.
  split.
  - intros st H. exact H.
  - intros s1 s2 s3 H12 H23 H. apply H23, H12, H.
Qed.

Lemma editors_all_with_editors b st : editors_all b (with_editors b st).
Proof.
  unfold editors_all. simpl. induction (editors st); simpl; constructor; trivial.
Qed.

Lemma editors_stay_hidden_each_body c a j : respects editors_stay_hidden (each_body c a j).
Proof.
  apply respects_each_body.
  - exact editors_stay_hidden_preorder.
  - intros st _. apply (editors_all_with_editors false).
  - apply respects_fire_emit; [apply editors_stay_hidden_preorder|].
    intros ev st H. exact H.
  - intros ps st H. exact H.
Qed.

Lemma vis_with_log t st p : vis (with_log t st) p = vis st p.
Proof. reflexivity. Qed.

Lemma vis_with_editors b st p : vis (with_editors b st) p = vis st p.
Proof. reflexivity. Qed.

(** The loop of the handler on a row in order: it ends without error,
    hides the panel of every custom header whose id is not the clicked
    one's, and hides the native editor surface if a built-in header is
    in the row. *)
Lemma loop_wf c a st st1 :
  wf st = true -> frame st st1 ->
  fst (for_each (row_indices st) (each_body c a) st1) = Ok tt
  /\ frame st (snd (for_each (row_indices st) (each_body c a) st1))
  /\ forall j, j ∈ row_indices st ->
       (custom st j = true -> attr_id j st <> attr_id a st ->
        forall p, panel_of st j = Some p ->
        vis (snd (for_each (row_indices st) (each_body c a) st1)) p = false)
       /\ (custom st j = false ->
           editors_all false (snd (for_each (row_indices st) (each_body c a) st1))).
Proof.
  intros Hwf F1.
  apply (for_each_inv (frame st)
           (fun j s =>
              (custom st j = true -> attr_id j st <> attr_id a st ->
               forall p, panel_of st j = Some p -> vis s p = false)
              /\ (custom st j = false -> editors_all false s))); trivial.
  - intros j s1 Hj HI.
    destruct (wf_header st j Hwf Hj) as (id & Hid & Hpanel).
    assert (attr_id j s1 = Some id) as Hid1 by now rewrite (frame_attr_id _ _ j HI).
    pose proof (frame_trans _ _ _ HI (frame_each_body c a j s1)) as F2.
    pose proof (custom_spec _ _ _ Hid) as Hcust.
    destruct (is_builtin id) eqn:Hb; simpl in Hcust.
    + rewrite (each_body_builtin c a j s1 id Hid1 Hb) in *. cbn [fst snd] in *.
      split; [reflexivity|]. split; [exact F2|]. split; [congruence|].
      intros _. apply (editors_all_with_editors false).
    + destruct (Hpanel eq_refl) as (x & p & Hq & Hg & Hp).
      destruct (decide (attr_id a s1 = Some id)) as [Ha|Ha].
      * rewrite (each_body_active c a j s1 id Hid1 Hb Ha) in *. cbn [fst snd] in *.
        split; [reflexivity|]. split; [exact F2|]. split; [|congruence].
        intros _ Hne. exfalso. apply Hne.
        rewrite Hid, <- Ha. now apply frame_attr_id.
      * rewrite <- (frame_getElementById _ _ x HI) in Hg.
        rewrite (each_body_hide c a j s1 id x p Hid1 Hb Ha Hq Hg) in *. cbn [fst snd] in *.
        split; [reflexivity|]. split; [exact F2|]. split; [|congruence].
        intros _ _ p' Hp'. assert (p' = p) as -> by congruence.
        rewrite vis_with_log. apply vis_alter_eq.
        destruct (getElementById_spec _ _ _ Hg) as (e & He & _).
        eapply lookup_lt_Some; eassumption.
  - intros j j' s1 Hj' HI [HQ1 HQ2]. split.
    + intros Hc Hne p Hp. specialize (HQ1 Hc Hne p Hp).
      pose proof (hides_only_each_body c a j' s1 p) as Hh.
      destruct (vis (snd (each_body c a j' s1)) p); trivial.
      rewrite Hh in HQ1; [discriminate | reflexivity].
    + intros Hc. apply (editors_stay_hidden_each_body c a j' s1). now apply HQ2.
Qed.

(** One run of a handler on a row in order. *)
Lemma tab_click_wf c a st :
  wf st = true -> a ∈ row_indices st ->
  exists st', tab_click c a st = (Ok tt, st') /\ frame st st' /\ shows_only st st' a.
Proof.
  intros Hwf Ha. rewrite tab_click_unfold.
  pose proof (frame_prelude a st) as F1. rewrite (frame_row_indices _ _ F1).
  destruct (loop_wf c a st (prelude a st) Hwf F1) as (Hok & F2 & HQ).
  destruct (for_each (row_indices st) (each_body c a) (prelude a st)) as [[[]|e] st2] eqn:Eloop;
    simpl in Hok, F2, HQ; [|discriminate].
  rewrite (bind_ok _ _ _ _ _ Eloop).
  destruct (wf_header st a Hwf Ha) as (id & Hid & Hpanel).
  assert (attr_id a st2 = Some id) as Hid2 by now rewrite (frame_attr_id _ _ a F2).
  pose proof (frame_trans _ _ _ F2 (frame_show_active c a st2)) as F3.
  pose proof (custom_spec _ _ _ Hid) as Hcust.
  destruct (is_builtin id) eqn:Hb; simpl in Hcust.
  - rewrite (show_active_builtin c a st2 id Hid2 Hb) in *.
    eexists. split; [reflexivity|]. split; [exact F3|]. split.
    + intros j p Hj Hc Hp. rewrite vis_with_log, vis_with_editors.
      assert (j <> a) as Hne by congruence.
      rewrite (bool_decide_eq_false_2 _ Hne).
      destruct (HQ j Hj) as [HQ1 _]. apply HQ1; trivial.
      intros E. unfold custom in Hc, Hcust. rewrite E in Hc. congruence.
    + intros _. apply (editors_all_with_editors true).
  - destruct (Hpanel eq_refl) as (x & pa & Hq & Hg & Hpa).
    rewrite <- (frame_getElementById _ _ x F2) in Hg.
    rewrite (show_active_show c a st2 id x pa Hid2 Hb Hq Hg) in *.
    eexists. split; [reflexivity|]. split; [exact F3|]. split; [|congruence].
    intros j p Hj Hc Hp. rewrite vis_with_log.
    destruct (decide (j = a)) as [->|Hne].
    + rewrite bool_decide_eq_true_2 by trivial.
      assert (p = pa) as -> by congruence.
      apply vis_alter_eq. destruct (getElementById_spec _ _ _ Hg) as (e & He & _).
      eapply lookup_lt_Some; eassumption.
    + rewrite (bool_decide_eq_false_2 _ Hne).
      assert (pa <> p) as Hp_ne.
      { intros <-. apply Hne. eapply wf_injective; eassumption. }
      rewrite vis_alter_ne by trivial.
      destruct (HQ j Hj) as [HQ1 _]. apply HQ1; trivial.
      intros E. apply Hp_ne. rewrite (panel_of_same_id _ _ _ E) in Hp. congruence.
Qed.

(** ** Sequences of clicks *)

Lemma shows_only_frame st st1 st' a :
  frame st st1 -> shows_only st1 st' a -> shows_only st st' a.
Proof.
  intros F [H1 H2]. split.
  - intros j p Hj Hc Hp. apply H1.
    + now rewrite (frame_row_indices _ _ F).
    + now rewrite (frame_custom _ _ j F).
    + now rewrite (frame_panel_of _ _ j F).
  - intros Hc. apply H2. now rewrite (frame_custom _ _ a F).
Qed.

Lemma run_handlers_wf cs a st :
  wf st = true -> a ∈ row_indices st ->
  exists st', run_handlers cs a st = (Ok tt, st') /\ frame st st'
    /\ (cs <> [] -> shows_only st st' a).
Proof.
  revert st. induction cs as [|c cs IH]; intros st Hwf Ha.
  - exists st. split; [reflexivity|]. split; [apply frame_refl | congruence].
  - destruct (tab_click_wf c a st Hwf Ha) as (st1 & E1 & F1 & S1).
    assert (wf st1 = true) as Hwf1 by now rewrite (frame_wf _ _ F1).
    assert (a ∈ row_indices st1) as Ha1 by now rewrite (frame_row_indices _ _ F1).
    destruct (IH st1 Hwf1 Ha1) as (st' & E2 & F2 & S2).
    exists st'. simpl. rewrite (bind_ok _ _ _ _ _ E1).
    split; [exact E2|]. split; [eapply frame_trans; eassumption|].
    intros _. destruct cs as [|c' cs].
    + simpl in E2. injection E2 as <-. exact S1.
    + eapply shows_only_frame; [exact F1|]. apply S2. discriminate.
Qed.

Lemma click_wf a st :
  wf st = true -> clickable st a ->
  exists st', click a st = (Ok tt, st') /\ frame st st' /\ shows_only st st' a.
Proof.
  intros Hwf (Ha & e & He & Hne).
  destruct (run_handlers_wf (handlers e) a st Hwf Ha) as (st' & E & F & S).
  exists st'. unfold click. unfold bind at 1. unfold get. rewrite He. auto.
Qed.

Lemma clickable_frame st st' a : frame st st' -> clickable st a -> clickable st' a.
Proof.
  intros F (Ha & e & He & Hne). split; [now rewrite (frame_row_indices _ _ F)|].
  destruct (frame_handlers _ _ _ _ F He) as (e' & He' & Hh).
  exists e'. split; trivial. congruence.
Qed.

Lemma clicks_wf l st :
  wf st = true -> Forall (clickable st) l ->
  exists st', clicks l st = (Ok tt, st') /\ frame st st'.
Proof.
  revert st. induction l as [|a l IH]; intros st Hwf Hl.
  - exists st. split; [reflexivity | apply frame_refl].
  - apply Forall_cons in Hl as [Ha Hl].
    destruct (click_wf a st Hwf Ha) as (st1 & E1 & F1 & _).
    destruct (IH st1) as (st' & E2 & F2).
    + now rewrite (frame_wf _ _ F1).
    + eapply Forall_impl; [exact Hl|]. intros b. now apply clickable_frame.
    + exists st'. simpl. rewrite (bind_ok _ _ _ _ _ E1).
      split; [exact E2 | eapply frame_trans; eassumption].
Qed.

Lemma clicks_app l1 l2 st :
  clicks (l1 ++ l2) st = (clicks l1 ;; clicks l2) st.
Proof.
  revert st. induction l1 as [|a l1 IH]; intros st; [reflexivity|].
  simpl. unfold bind. destruct (click a st) as [[[]|e] st1]; [apply IH | reflexivity].
Qed.







(** ** Built-in headers and the native editor surface *)

Lemma for_each_ok_split js1 j js2 body st st' :
  for_each (js1 ++ j :: js2) body st = (Ok tt, st') ->
  exists s1 s2,
    for_each js1 body st = (Ok tt, s1)
    /\ body j s1 = (Ok tt, s2)
    /\ for_each js2 body s2 = (Ok tt, st').
Proof.
  rewrite for_each_app. intros H.
  apply bind_ok_inv in H as ([] & s1 & H1 & H). simpl in H.
  apply bind_ok_inv in H as ([] & s2 & H2 & H3). eauto.
Qed.

Lemma snd_eq {A : Type} (m : M A) st r st' : m st = (r, st') -> snd (m st) = st'.
Proof. intros ->. reflexivity. Qed.




(** ** What the handler logs *)

Lemma log_grows_preorder : PreOrder log_grows.
Proof.
  split.
  - intros st. exists []. now rewrite app_nil_r.
  - intros s1 s2 s3 [t1 H1] [t2 H2]. exists (t1 ++ t2).
    now rewrite H2, H1, app_assoc.
Qed.

Lemma log_grows_with_log t st : log_grows st (with_log t st).
Proof. now exists t. Qed.

Lemma log_grows_each_body c a j : respects log_grows (each_body c a j).
Proof.
  apply respects_each_body.
  - exact log_grows_preorder.
  - intros st. eexists. reflexivity.
  - intros st. rewrite fire_eq. apply log_grows_with_log.
  - intros ps st. eexists. reflexivity.
Qed.

Lemma log_grows_show_active c a : respects log_grows (show_active c a).
Proof.
  apply respects_show_active.
  - exact log_grows_preorder.
  - intros st. eexists. reflexivity.
  - intros st. eexists. reflexivity.
  - intros st. rewrite fire_eq. apply log_grows_with_log.
  - intros ps st. eexists. reflexivity.
Qed.

Lemma fired_callback k c fn this :
  callback_of k c = Some (fn, this) ->
  fired k c = [EvCall k fn this (c_tab c) (c_content c)].
Proof. intros H. unfold fired. now rewrite H. Qed.




(** C3, as the code has it. When the handler ends without error, every
    header of the row that is custom, whose id is not the clicked
    header's and whose panel is in the document has had the hide callback
    called, with the header and panel the handler captured in its own
    registration (not those of the header being looked at), and the hiding
    of the panel comes right after that call. *)
Theorem hide_callback_precedes_hiding c a j st st' id x p n fn this :
  tab_click c a st = (Ok tt, st') ->
  j ∈ row_indices st ->
  attr_id j st = Some id -> is_builtin id = false -> attr_id a st <> Some id ->
  quick_id (selector_of (Some id)) = Some x ->
  getElementById x (elems st) = Some p -> nid_at st p = Some n ->
  callback_of OnHide c = Some (fn, this) ->
  exists t1 t2,
    log st' = log st ++ t1
              ++ [EvCall OnHide fn this (c_tab c) (c_content c); EvDisplay false [n]]
              ++ t2.
Proof.
  intros Hrun Hj Hid Hb Ha Hq Hg Hn Hcb. rewrite tab_click_unfold in Hrun.
  pose proof (frame_prelude a st) as F1. rewrite (frame_row_indices _ _ F1) in Hrun.
  apply bind_ok_inv in Hrun as ([] & st2 & Hloop & Hshow).
  apply list_elem_of_split in Hj as (js1 & js2 & Hsplit). rewrite Hsplit in Hloop.
  apply for_each_ok_split in Hloop as (s1 & s2 & H1 & H2 & H3).
  assert (frame st s1) as Fs1.
  { eapply frame_trans; [exact F1|]. rewrite <- (snd_eq _ _ _ _ H1).
    apply respects_for_each; [exact frame_preorder|]. intros j' _. apply frame_each_body. }
  assert (log_grows (prelude a st) s1) as [u1 L1].
  { rewrite <- (snd_eq _ _ _ _ H1).
    apply respects_for_each; [exact log_grows_preorder|]. intros j' _. apply log_grows_each_body. }
  assert (log_grows s2 st2) as [u2 L2].
  { rewrite <- (snd_eq _ _ _ _ H3).
    apply respects_for_each; [exact log_grows_preorder|]. intros j' _. apply log_grows_each_body. }
  assert (log_grows st2 st') as [u3 L3].
  { rewrite <- (snd_eq _ _ _ _ Hshow). apply log_grows_show_active. }
  rewrite (each_body_hide c a j s1 id x p) in H2.
  - injection H2 as <-. simpl in L2.
    rewrite (fired_callback _ _ _ _ Hcb) in L2.
    rewrite (frame_nid_at _ _ p Fs1), Hn in L2. simpl in L2.
    exists (EvPreventDefault :: u1), (u2 ++ u3).
    rewrite L3, L2, L1, log_prelude. rewrite <- !app_assoc. reflexivity.
  - now rewrite (frame_attr_id _ _ j Fs1).
  - exact Hb.
  - now rewrite (frame_attr_id _ _ a Fs1).
  - exact Hq.
  - now rewrite (frame_getElementById _ _ x Fs1).
Qed.

(** ** The log of a click on a row of plain headers *)




Lemma frame_row_plain st st' : frame st st' -> row_plain st' = row_plain st.
Proof.
  intros F. unfold row_plain. rewrite (frame_row_indices _ _ F).
  induction (row_indices st) as [|j js IH]; simpl; trivial.
  unfold header_plain at 1 3. now rewrite (frame_attr_id _ _ j F), IH.
Qed.

Lemma panel_of_eq st j id :
  attr_id j st = Some id ->
  panel_of st j = quick_id (selector_of (Some id)) ≫= fun x => getElementById x (elems st).
Proof. intros H. unfold panel_of. now rewrite H. Qed.

Lemma plain_header st j :
  row_plain st = true -> j ∈ row_indices st ->
  exists id, attr_id j st = Some id
    /\ (is_builtin id = false ->
        selector_of (Some id) = ""
        \/ exists x, quick_id (selector_of (Some id)) = Some x).
Proof.
  unfold row_plain. intros H Hj. rewrite forallb_forall in H.
  specialize (H j). rewrite <- list_elem_of_In in H. specialize (H Hj).
  unfold header_plain in H. destruct (attr_id j st) as [id|]; [|discriminate].
  exists id. split; trivial. intros Hb. rewrite Hb in H. simpl in H.
  apply orb_prop in H as [H|H].
  - left. now apply String.eqb_eq.
  - right. apply bool_decide_eq_true in H as [x Hx]. eauto.
Qed.

Lemma wf_row_plain st : wf st = true -> row_plain st = true.
Proof.
  intros Hwf. unfold row_plain. apply forallb_forall. intros j Hj.
  apply list_elem_of_In in Hj.
  destruct (wf_header st j Hwf Hj) as (id & Hid & Hpanel).
  unfold header_plain. rewrite Hid. destruct (is_builtin id) eqn:Hb; trivial.
  destruct (Hpanel eq_refl) as (x & p & Hq & _). rewrite Hq.
  cbn [orb]. apply orb_true_intro. right. apply bool_decide_eq_true. eauto.
Qed.

(** A selector that finds nothing, in a state and in every state with
    the same elements. *)
Lemma jq_missing st s1 id :
  frame st s1 ->
  selector_of (Some id) = ""
  \/ (exists x, quick_id (selector_of (Some id)) = Some x
        /\ getElementById x (elems st) = None) ->
  jq (selector_of (Some id)) s1 = (Ok [], s1).
Proof.
  intros F [Hsel | (x & Hq & Hg)].
  - now rewrite Hsel.
  - rewrite (jq_quick _ _ s1 Hq), (frame_getElementById _ _ x F), Hg. reflexivity.
Qed.

Lemma panel_of_missing st j id :
  attr_id j st = Some id -> jq (selector_of (Some id)) st = (Ok [], st) ->
  panel_of st j = None.
Proof.
  intros Hid Hq. rewrite (panel_of_eq _ _ _ Hid).
  destruct (quick_id (selector_of (Some id))) as [x|] eqn:E; trivial.
  rewrite (jq_quick _ _ st E) in Hq. simpl.
  destruct (getElementById x (elems st)); [discriminate | reflexivity].
Qed.

Lemma each_body_trace c a j st s1 :
  row_plain st = true -> j ∈ row_indices st -> frame st s1 ->
  exists s2, each_body c a j s1 = (Ok tt, s2)
    /\ log s2 = log s1 ++ entry_trace c st a j.
Proof.
  intros Hplain Hj F.
  destruct (plain_header st j Hplain Hj) as (id & Hid & Hsel).
  assert (attr_id j s1 = Some id) as Hid1 by now rewrite (frame_attr_id _ _ j F).
  unfold entry_trace. rewrite Hid.
  destruct (is_builtin id) eqn:Hb.
  { rewrite (each_body_builtin c a j s1 id Hid1 Hb). eauto. }
  rewrite <- (frame_attr_id _ _ a F).
  destruct (decide (attr_id a s1 = Some id)) as [Ha|Ha].
  { rewrite (each_body_active c a j s1 id Hid1 Hb Ha).
    eexists. split; [reflexivity|]. now rewrite app_nil_r. }
  rewrite (panel_of_eq _ _ _ Hid).
  assert (forall Hmiss : selector_of (Some id) = ""
                         \/ (exists x, quick_id (selector_of (Some id)) = Some x
                               /\ getElementById x (elems st) = None),
            each_body c a j s1 = (Ok tt, s1)) as Hskip.
  { intros Hmiss. apply (each_body_missing c a j s1 id Hid1 Hb).
    now apply (jq_missing st). }
  destruct (Hsel eq_refl) as [Hempty | (x & Hq)].
  - rewrite Hskip by now left. rewrite Hempty. simpl.
    eexists. split; [reflexivity|]. now rewrite app_nil_r.
  - rewrite Hq. simpl. destruct (getElementById x (elems st)) as [p|] eqn:Hg.
    + rewrite <- (frame_getElementById _ _ x F) in Hg.
      rewrite (each_body_hide c a j s1 id x p Hid1 Hb Ha Hq Hg).
      eexists. split; [reflexivity|]. simpl.
      now rewrite (frame_nid_at _ _ p F).
    + rewrite Hskip by (right; eauto).
      eexists. split; [reflexivity|]. now rewrite app_nil_r.
Qed.

Lemma show_active_trace c a st s1 :
  row_plain st = true -> a ∈ row_indices st -> frame st s1 ->
  exists s2, show_active c a s1 = (Ok tt, s2)
    /\ log s2 = log s1 ++ final_trace c st a.
Proof.
  intros Hplain Ha F.
  destruct (plain_header st a Hplain Ha) as (id & Hid & Hsel).
  assert (attr_id a s1 = Some id) as Hid1 by now rewrite (frame_attr_id _ _ a F).
  unfold final_trace. rewrite Hid.
  destruct (is_builtin id) eqn:Hb.
  { rewrite (show_active_builtin c a s1 id Hid1 Hb). eauto. }
  rewrite (panel_of_eq _ _ _ Hid).
  assert (forall Hmiss : selector_of (Some id) = ""
                         \/ (exists x, quick_id (selector_of (Some id)) = Some x
                               /\ getElementById x (elems st) = None),
            show_active c a s1 = (Ok tt, s1)) as Hskip.
  { intros Hmiss. apply (show_active_missing c a s1 id Hid1 Hb).
    now apply (jq_missing st). }
  destruct (Hsel eq_refl) as [Hempty | (x & Hq)].
  - rewrite Hskip by now left. rewrite Hempty. simpl.
    eexists. split; [reflexivity|]. now rewrite app_nil_r.
  - rewrite Hq. simpl. destruct (getElementById x (elems st)) as [p|] eqn:Hg.
    + rewrite <- (frame_getElementById _ _ x F) in Hg.
      rewrite (show_active_show c a s1 id x p Hid1 Hb Hq Hg).
      eexists. split; [reflexivity|]. simpl.
      now rewrite (frame_nid_at _ _ p F).
    + rewrite Hskip by (right; eauto).
      eexists. split; [reflexivity|]. now rewrite app_nil_r.
Qed.

Lemma loop_trace c a st js :
  row_plain st = true -> (forall j, j ∈ js -> j ∈ row_indices st) ->
  forall s1, frame st s1 ->
  exists s2, for_each js (each_body c a) s1 = (Ok tt, s2)
    /\ frame st s2
    /\ log s2 = log s1 ++ flat_map (entry_trace c st a) js.
Proof.
  intros Hplain. induction js as [|j js IH]; intros Hsub s1 F.
  - exists s1. simpl. rewrite app_nil_r. auto.
  - destruct (each_body_trace c a j st s1 Hplain (Hsub j ltac:(left)) F) as (s' & E & L).
    pose proof (frame_trans _ _ _ F (frame_each_body c a j s1)) as F2.
    rewrite E in F2. simpl in F2.
    destruct (IH (fun j' Hj' => Hsub j' (list_elem_of_further _ _ _ Hj')) s' F2)
      as (s2 & E2 & F3 & L2).
    exists s2. simpl. rewrite (bind_ok _ _ _ _ _ E).
    split; [exact E2|]. split; [exact F3|].
    now rewrite L2, L, app_assoc.
Qed.

(** On a row of plain headers a handler ends without error, whether the
    panels are in the document or not, and logs [click_trace]. *)
Lemma tab_click_trace c a st :
  row_plain st = true -> a ∈ row_indices st ->
  exists st', tab_click c a st = (Ok tt, st') /\ frame st st'
    /\ log st' = log st ++ click_trace c st a.
Proof.
  intros Hplain Ha. rewrite tab_click_unfold.
  pose proof (frame_prelude a st) as F1. rewrite (frame_row_indices _ _ F1).
  destruct (loop_trace c a st (row_indices st) Hplain (fun j H => H) (prelude a st) F1)
    as (st2 & Eloop & F2 & L2).
  rewrite (bind_ok _ _ _ _ _ Eloop).
  destruct (show_active_trace c a st st2 Hplain Ha F2) as (st' & E & L).
  pose proof (frame_trans _ _ _ F2 (frame_show_active c a st2)) as F3.
  rewrite E in F3. simpl in F3.
  exists st'. split; [exact E|]. split; [exact F3|].
  unfold click_trace. rewrite L, L2, log_prelude. simpl. now rewrite <- !app_assoc.
Qed.


(** C4. A custom header whose selector finds nothing in the document is
    passed over: the loop body for it, and the code for it as the clicked
    header, end without error and leave the state, log included, as it
    was (no callback, no change of visibility); and on a row of plain
    headers the whole handler ends without error and logs [click_trace],
    to which such a header adds nothing. *)
Theorem missing_panel_is_skipped c a j st id :
  attr_id j st = Some id -> is_builtin id = false ->
  jq (selector_of (Some id)) st = (Ok [], st) ->
  each_body c a j st = (Ok tt, st)
  /\ show_active c j st = (Ok tt, st)
  /\ entry_trace c st a j = []
  /\ final_trace c st j = []
  /\ (row_plain st = true -> a ∈ row_indices st ->
      exists st', tab_click c a st = (Ok tt, st') /\ frame st st'
        /\ log st' = log st ++ click_trace c st a).
Proof.
  intros H Hb Hq. pose proof (panel_of_missing st j id H Hq) as Hnone.
  split; [eapply each_body_missing; eassumption|].
  split; [eapply show_active_missing; eassumption|].
  split; [|split].
  - unfold entry_trace. rewrite H, Hb, Hnone. now destruct (decide (attr_id a st = Some id)).
  - unfold final_trace. now rewrite H, Hb, Hnone.
  - intros Hplain Ha. now apply tab_click_trace.
Qed.

(** ** Clicking the same header again *)





(** ** Registration *)

Lemma length_insert_at {A : Type} p (x : A) l : length (insert_at p x l) = S (length l).
Proof.
  unfold insert_at. rewrite length_app. simpl. rewrite length_take, length_drop. lia.
Qed.

Lemma lookup_insert_at_lt {A : Type} p (x : A) l i :
  i < p -> p <= length l -> insert_at p x l !! i = l !! i.
Proof.
  intros Hi Hp. unfold insert_at.
  rewrite lookup_app_l by (rewrite length_take; lia). now rewrite lookup_take_lt.
Qed.

Lemma lookup_insert_at_eq {A : Type} p (x : A) l :
  p <= length l -> insert_at p x l !! p = Some x.
Proof.
  intros Hp. unfold insert_at.
  rewrite lookup_app_r by (rewrite length_take; lia).
  rewrite length_take. now replace (p - p `min` length l) with 0 by lia.
Qed.

Lemma lookup_insert_at_gt {A : Type} p (x : A) l i :
  p <= i -> p <= length l -> insert_at p x l !! S i = l !! i.
Proof.
  intros Hi Hp. unfold insert_at.
  rewrite lookup_app_r by (rewrite length_take; lia).
  rewrite length_take. replace (S i - p `min` length l) with (S (i - p)) by lia.
  simpl. rewrite lookup_drop. f_equal. lia.
Qed.

Lemma fst_bbc_tab a stamp st :
  fst (bbc_tab a stamp st) = new_panel a stamp (S (next_nid st)).
Proof. unfold bbc_tab. now destruct (row st) as [[s n]|]. Qed.

Lemma bbc_tab_spec a stamp st s n :
  row st = Some (s, n) -> s + n <= length (elems st) ->
  row (snd (bbc_tab a stamp st)) = Some (S s, S n)
  /\ next_nid (snd (bbc_tab a stamp st)) = S (S (next_nid st))
  /\ length (elems (snd (bbc_tab a stamp st))) = S (S (length (elems st)))
  /\ (forall i, i < s -> elems (snd (bbc_tab a stamp st)) !! i = elems st !! i)
  /\ elems (snd (bbc_tab a stamp st)) !! s = Some (new_panel a stamp (S (next_nid st)))
  /\ (forall i, i < n ->
        elems (snd (bbc_tab a stamp st)) !! (S s + i)
        = add_handler (new_handler a st) <$> elems st !! (s + i))
  /\ elems (snd (bbc_tab a stamp st)) !! (S s + n)
     = Some (add_handler (new_handler a st) (new_tab a stamp (next_nid st))).
Proof.
  intros Hrow Hlen. unfold bbc_tab. rewrite Hrow. cbn [fst snd row next_nid elems].
  split; [reflexivity|]. split; [reflexivity|].
  split; [now rewrite length_imap, !length_insert_at|].
  assert (s <= length (insert_at (s + n) (from_html (tab_markup (used_id a stamp) (a_title a))
                                            (next_nid st)) (elems st))) as Hs
    by (rewrite length_insert_at; lia).
  split; [|split; [|split]].
  - intros i Hi. rewrite list_lookup_imap.
    rewrite lookup_insert_at_lt by (trivial; lia).
    rewrite lookup_insert_at_lt by lia.
    destruct (elems st !! i); simpl; trivial.
    unfold in_row. replace (S s <=? i)%nat with false; trivial.
    symmetry. apply Nat.leb_gt. lia.
  - rewrite list_lookup_imap, lookup_insert_at_eq by trivial. simpl.
    unfold in_row. replace (S s <=? s)%nat with false; trivial.
    symmetry. apply Nat.leb_gt. lia.
  - intros i Hi. rewrite list_lookup_imap. simpl.
    rewrite lookup_insert_at_gt by (trivial; lia).
    rewrite lookup_insert_at_lt by lia.
    destruct (elems st !! (s + i)); simpl; trivial.
    unfold in_row. replace (S s <=? S (s + i))%nat with true by (symmetry; apply Nat.leb_le; lia).
    replace (S (s + i) <? S s + S n)%nat with true by (symmetry; apply Nat.ltb_lt; lia).
    reflexivity.
  - rewrite list_lookup_imap. simpl.
    rewrite lookup_insert_at_gt by (trivial; lia).
    rewrite lookup_insert_at_eq by lia. simpl.
    unfold in_row. replace (S s <=? S (s + n))%nat with true by (symmetry; apply Nat.leb_le; lia).
    replace (S (s + n) <? S s + S n)%nat with true by (symmetry; apply Nat.ltb_lt; lia).
    reflexivity.
Qed.

Lemma handlers_with_handlers cs e : handlers (with_handlers cs e) = handlers e ++ cs.
Proof.
  revert e. induction cs as [|c cs IH]; intros e; simpl.
  - now rewrite app_nil_r.
  - rewrite IH. simpl. now rewrite <- app_assoc.
Qed.


Lemma eid_with_handlers cs e : eid (with_handlers cs e) = eid e.
Proof. revert e. induction cs as [|c cs IH]; intros e; simpl; [|rewrite IH]; reflexivity. Qed.

Lemma length_closures_of rs base : length (closures_of rs base) = length rs.
Proof.
  revert base. induction rs as [|[a stamp] rs IH]; intros base; simpl; trivial.
  now rewrite IH.
Qed.


(** The document after the registrations [rs]: what was before the row
    is as it was; then come the new panels, in the order of the
    registrations; then the headers the row had, each with the new
    handlers bound to it; then the new headers, each with the handlers of
    its own and of the later registrations. *)
Lemma register_all_spec rs :
  forall st s n,
  row st = Some (s, n) -> s + n <= length (elems st) ->
  row (register_all rs st) = Some (s + length rs, n + length rs)
  /\ (forall i, i < s -> elems (register_all rs st) !! i = elems st !! i)
  /\ (forall i, i < n ->
        elems (register_all rs st) !! (s + length rs + i)
        = with_handlers (closures_of rs (next_nid st)) <$> elems st !! (s + i))
  /\ (forall j a stamp, rs !! j = Some (a, stamp) ->
        elems (register_all rs st) !! (s + length rs + n + j)
        = Some (with_handlers (drop j (closures_of rs (next_nid st)))
                  (new_tab a stamp (next_nid st + 2 * j)))
        /\ elems (register_all rs st) !! (s + j)
           = Some (new_panel a stamp (S (next_nid st + 2 * j)))).
Proof.
  induction rs as [|[a stamp] rs IH]; intros st s n Hrow Hlen.
  - simpl. rewrite !Nat.add_0_r. split; [exact Hrow|]. split; [trivial|]. split.
    + intros i Hi. now destruct (elems st !! (s + i)).
    + intros j a stamp Hj. discriminate.
  - destruct (bbc_tab_spec a stamp st s n Hrow Hlen)
      as (Hrow1 & Hnid1 & Hlen1 & Hpre1 & Hpanel1 & Hold1 & Hnew1).
    cbn [register_all closures_of length].
    set (st1 := snd (bbc_tab a stamp st)) in *.
    destruct (IH st1 (S s) (S n) Hrow1 ltac:(lia)) as (R & P & O & N).
    rewrite Hnid1 in O, N.
    change {| c_events := a_events a; c_tab := next_nid st; c_content := S (next_nid st) |}
      with (new_handler a st).
    set (cs := closures_of rs (S (S (next_nid st)))) in *.
    replace (s + S (length rs)) with (S s + length rs) by lia.
    replace (n + S (length rs)) with (S n + length rs) by lia.
    split; [exact R|]. split; [|split].
    + intros i Hi. rewrite P by lia. now apply Hpre1.
    + intros i Hi. rewrite O by lia. rewrite Hold1 by trivial.
      now destruct (elems st !! (s + i)).
    + intros [|j] a' stamp' Hj.
      * injection Hj as <- <-. rewrite !Nat.add_0_r. split.
        -- rewrite O by lia. now rewrite Hnew1.
        -- rewrite P by lia. exact Hpanel1.
      * destruct (N j a' stamp' Hj) as [Hh Hp].
        replace (S s + length rs + n + S j) with (S s + length rs + S n + j) by lia.
        replace (s + S j) with (S s + j) by lia.
        replace (next_nid st + 2 * S j) with (S (S (next_nid st)) + 2 * j) by lia.
        split; [exact Hh | exact Hp].
Qed.


(** ** The identifiers a registration gives *)

Lemma until_quote_plain s r :
  plain_text s = true -> JsString.until_quote (s +:+ String "'" r) = Some s.
Proof.
  induction s as [|c s IH]; simpl; intros H; [reflexivity|].
  apply andb_prop in H as [Hc Hs]. unfold plain_char in Hc.
  destruct (Ascii.eqb c "'"); [discriminate|]. now rewrite IH.
Qed.

Lemma raw_id_attr_tab id title :
  plain_text id = true -> raw_id_attr (tab_markup id title) = Some ("menu-item-" +:+ id).
Proof.
  intros H. unfold raw_id_attr, tab_markup. simpl.
  change ("" +:+ id +:+ "'><a href='#'>" +:+ title +:+ "</a></li>")
    with (id +:+ String "'" ("><a href='#'>" +:+ title +:+ "</a></li>")).
  now rewrite (until_quote_plain id _ H).
Qed.

Lemma raw_id_attr_panel id content :
  plain_text id = true -> raw_id_attr (panel_markup id content) = Some id.
Proof.
  intros H. unfold raw_id_attr, panel_markup. simpl.
  change ("" +:+ id +:+ "'>" +:+ content +:+ "</div>")
    with (id +:+ String "'" (">" +:+ content +:+ "</div>")).
  now rewrite (until_quote_plain id _ H).
Qed.

Lemma used_id_given a stamp : a_id a <> "" -> used_id a stamp = a_id a.
Proof.
  intros H. unfold used_id. apply String.eqb_neq in H. now rewrite H.
Qed.

(** Without an identifier, a registration uses what [yootil.timestamp()]
    returned. *)
Lemma used_id_default a stamp : a_id a = "" -> used_id a stamp = stamp.
Proof. intros H. unfold used_id. now rewrite H. Qed.

Lemma eid_new_tab a stamp n :
  (forall t, plain_text t = true -> charrefs t = t) ->
  a_id a <> "" -> plain_text (a_id a) = true ->
  eid (new_tab a stamp n) = Some ("menu-item-" +:+ a_id a).
Proof.
  intros Hcr Hid Hplain. unfold new_tab. simpl.
  rewrite (used_id_given _ _ Hid), (raw_id_attr_tab _ _ Hplain). simpl.
  now rewrite Hcr.
Qed.

Lemma eid_new_panel a stamp n :
  (forall t, plain_text t = true -> charrefs t = t) ->
  a_id a <> "" -> plain_text (a_id a) = true ->
  eid (new_panel a stamp n) = Some (a_id a).
Proof.
  intros Hcr Hid Hplain. unfold new_panel. simpl.
  rewrite (used_id_given _ _ Hid), (raw_id_attr_panel _ _ Hplain). simpl.
  now rewrite Hcr.
Qed.

(** X19. In a document that has the tab row, a registration with an
    inert title and content and with a non-empty identifier in which no
    character is an apostrophe, an ampersand, an angle bracket, NUL or a
    carriage return leaves a new last header in the row with id
    [menu-item-<id>], and a panel with id [<id>], hidden, right before
    the first header of the row; the panel is the value returned. *)
Theorem registration_with_plain_id a stamp st s n :
  (forall t, plain_text t = true -> charrefs t = t) ->
  row st = Some (s, n) -> s + n <= length (elems st) ->
  inert_markup a = true ->
  a_id a <> "" -> plain_text (a_id a) = true ->
  row (snd (bbc_tab a stamp st)) = Some (S s, S n)
  /\ (exists h, elems (snd (bbc_tab a stamp st)) !! (S s + n) = Some h
        /\ eid h = Some ("menu-item-" +:+ a_id a))
  /\ elems (snd (bbc_tab a stamp st)) !! s = Some (fst (bbc_tab a stamp st))
  /\ eid (fst (bbc_tab a stamp st)) = Some (a_id a)
  /\ shown (fst (bbc_tab a stamp st)) = false.
Proof.
  intros Hcr Hrow Hlen _ Hid Hplain.
  destruct (bbc_tab_spec a stamp st s n Hrow Hlen) as (Hrow1 & _ & _ & _ & Hpanel & _ & Hnew).
  rewrite fst_bbc_tab.
  split; [exact Hrow1|]. split; [|split; [exact Hpanel|split]].
  - eexists. split; [exact Hnew|]. now apply (eid_new_tab a stamp (next_nid st)).
  - now apply eid_new_panel.
  - reflexivity.
Qed.

(** ** Registrations give a row in order *)

Lemma append_nil_r (s : string) : s +:+ "" = s.
Proof.
  induction s as [|c s IH]; [reflexivity|].
  change (String c (s +:+ "") = String c s). now rewrite IH.
Qed.

Lemma append_assoc (s1 s2 s3 : string) : (s1 +:+ s2) +:+ s3 = s1 +:+ (s2 +:+ s3).
Proof.
  induction s1 as [|c s1 IH]; [reflexivity|].
  change (String c ((s1 +:+ s2) +:+ s3) = String c (s1 +:+ (s2 +:+ s3))). now rewrite IH.
Qed.

Lemma prefix_append s r : String.prefix s (s +:+ r) = true.
Proof.
  induction s as [|c s IH]; [now destruct r|].
  change (String.prefix (String c s) (String c (s +:+ r)) = true).
  cbn [String.prefix]. now destruct (ascii_dec c c).
Qed.

Lemma split_go_no_sep sep s :
  JsString.contains sep s = false ->
  forall cur, JsString.split_go sep 0 cur s = [cur +:+ s].
Proof.
  induction s as [|c s IH]; intros H cur.
  - simpl. now rewrite append_nil_r.
  - cbn [JsString.contains] in H. apply orb_false_elim in H as [Hp Hc].
    cbn [JsString.split_go]. rewrite Hp. rewrite (IH Hc).
    f_equal. now rewrite append_assoc.
Qed.

Lemma panel_name_menu_item id :
  JsString.contains "menu-item-" id = false ->
  panel_name ("menu-item-" +:+ id) = Some id.
Proof.
  intros H. unfold panel_name, JsString.split.
  change ("menu-item-" +:+ id) with (String "m" ("enu-item-" +:+ id)).
  cbn [JsString.split_go].
  assert (String.prefix "menu-item-" (String "m" ("enu-item-" +:+ id)) = true) as Hp
    by apply (prefix_append "menu-item-" id).
  rewrite Hp.
  change (JsString.split_go "menu-item-" (String.length "menu-item-" - 1) ""
            ("enu-item-" +:+ id))
    with (JsString.split_go "menu-item-" 0 "" id).
  now rewrite (split_go_no_sep _ _ H).
Qed.

Lemma simple_id_parts id :
  simple_id id = true ->
  id <> "" /\ JsString.all_chars JsString.is_word_or_dash id = true
  /\ JsString.contains "menu-item-" id = false.
Proof.
  unfold simple_id. intros H.
  apply andb_prop in H as [H Hc]. apply andb_prop in H as [Hn Hw].
  apply negb_true_iff in Hn, Hc. apply String.eqb_neq in Hn. auto.
Qed.

Lemma word_char_plain c : JsString.is_word_or_dash c = true -> plain_char c = true.
Proof.
  destruct c as [b0 b1 b2 b3 b4 b5 b6 b7].
  destruct b0, b1, b2, b3, b4, b5, b6, b7; vm_compute; congruence.
Qed.

Lemma simple_id_plain id : simple_id id = true -> plain_text id = true.
Proof.
  intros H. apply simple_id_parts in H as (_ & Hw & _). unfold plain_text.
  induction id as [|c id IH]; simpl in *; trivial.
  apply andb_prop in Hw as [Hc Hw]. now rewrite (word_char_plain _ Hc), IH.
Qed.

Lemma selector_of_menu_item id :
  simple_id id = true -> selector_of (Some ("menu-item-" +:+ id)) = "#" +:+ id.
Proof.
  intros H. apply simple_id_parts in H as (_ & _ & Hc).
  unfold selector_of. cbn [String.eqb String.append].
  now rewrite (panel_name_menu_item _ Hc).
Qed.

Lemma quick_id_hash id : simple_id id = true -> quick_id ("#" +:+ id) = Some id.
Proof.
  intros H. apply simple_id_parts in H as (Hn & Hw & _).
  unfold quick_id.
  change (JsString.drop_prefix "#" ("#" +:+ id)) with (Some id). cbv iota.
  apply String.eqb_neq in Hn. now rewrite Hn, Hw.
Qed.

Lemma find_id_first x l p e i :
  l !! p = Some e -> eid e = Some x ->
  (forall q e', q < p -> l !! q = Some e' -> eid e' <> Some x) ->
  find_id x i l = Some (i + p).
Proof.
  revert p i. induction l as [|e0 l IH]; intros p i Hp He Hfirst; [discriminate|].
  destruct p as [|p]; simpl in *.
  - injection Hp as ->. rewrite decide_True by trivial. f_equal. lia.
  - rewrite decide_False by (apply (Hfirst 0 e0); [lia | reflexivity]).
    rewrite (IH p (S i) Hp He).
    + f_equal. lia.
    + intros q e' Hq. apply (Hfirst (S q)). lia.
Qed.

Lemma getElementById_first x l p e :
  l !! p = Some e -> eid e = Some x ->
  (forall q e', q < p -> l !! q = Some e' -> eid e' <> Some x) ->
  getElementById x l = Some p.
Proof. intros Hp He Hfirst. apply (find_id_first x l p e 0 Hp He Hfirst). Qed.

Lemma NoDup_omap_inj {A B : Type} (f : A -> option B) (l : list A) :
  NoDup l ->
  (forall x y p, x ∈ l -> y ∈ l -> f x = Some p -> f y = Some p -> x = y) ->
  NoDup (omap f l).
Proof.
  induction 1 as [|x l Hx Hl IH]; intros Hinj; simpl; [constructor|].
  assert (NoDup (omap f l)) as Hrest.
  { apply IH. intros y z p Hy Hz. apply Hinj; now right. }
  destruct (f x) as [p|] eqn:Hfx; trivial.
  constructor; trivial. intros Hin.
  apply list_elem_of_omap in Hin as (y & Hy & Hfy).
  apply Hx. rewrite (Hinj x y p); trivial; [left | now right].
Qed.

(** What the headers of the row are after registrations with simple,
    distinct identifiers on a row of built-in headers: a built-in header,
    or the header of registration [j], whose panel is the [j]-th new
    panel. *)
Lemma registered_row_headers rs st s n :
  (forall t, plain_text t = true -> charrefs t = t) ->
  row st = Some (s, n) -> s + n <= length (elems st) ->
  (forall i e, i < n -> elems st !! (s + i) = Some e ->
     exists id, eid e = Some id /\ is_builtin id = true) ->
  Forall (fun id => simple_id id = true) (ids_of rs) ->
  NoDup (ids_of rs) ->
  (forall i e id, i < s -> elems st !! i = Some e -> id ∈ ids_of rs -> eid e <> Some id) ->
  forall i, i ∈ row_indices (register_all rs st) ->
    (exists id, attr_id i (register_all rs st) = Some id /\ is_builtin id = true)
    \/ (exists j id, i = s + length rs + n + j
          /\ attr_id i (register_all rs st) = Some id
          /\ panel_of (register_all rs st) i = Some (s + j)).
Proof.
  intros Hcr Hrow Hlen Hbuiltin Hsimple Hnd Hfresh i Hi.
  destruct (register_all_spec rs st s n Hrow Hlen) as (R & P & O & N).
  unfold row_indices in Hi. rewrite R in Hi.
  apply list_elem_of_In, in_seq in Hi.
  destruct (decide (i < s + length rs + n)) as [Hlt|Hge].
  - left. replace i with (s + length rs + (i - (s + length rs))) by lia.
    set (i' := i - (s + length rs)). assert (i' < n) as Hi' by (subst i'; lia).
    destruct (lookup_lt_is_Some_2 (elems st) (s + i') ltac:(lia)) as [e He].
    destruct (Hbuiltin i' e Hi' He) as (id & Hid & Hb).
    exists id. split; trivial. unfold attr_id. rewrite (O i' Hi'), He. simpl.
    now rewrite eid_with_handlers.
  - right. set (j := i - (s + length rs + n)). assert (j < length rs) as Hj by (subst j; lia).
    destruct (lookup_lt_is_Some_2 rs j Hj) as [[a stamp] Hr].
    assert (ids_of rs !! j = Some (a_id a)) as Hidj.
    { unfold ids_of. change (map ?f ?l) with (f <$> l).
      now rewrite list_lookup_fmap, Hr. }
    assert (simple_id (a_id a) = true) as Hs.
    { rewrite Forall_forall in Hsimple. apply Hsimple.
      eapply list_elem_of_lookup_2. exact Hidj. }
    pose proof (simple_id_plain _ Hs) as Hplain.
    destruct (simple_id_parts _ Hs) as (Hne & _ & _).
    destruct (N j a stamp Hr) as [Hh Hp].
    assert (i = s + length rs + n + j) as Ei by (subst j; lia).
    assert (attr_id i (register_all rs st) = Some ("menu-item-" +:+ a_id a)) as Hattr.
    { unfold attr_id. rewrite Ei, Hh. simpl. rewrite eid_with_handlers.
      now apply eid_new_tab. }
    exists j, ("menu-item-" +:+ a_id a). split; [exact Ei|]. split; [exact Hattr|].
    unfold panel_of. apply bind_Some. exists ("menu-item-" +:+ a_id a).
    split; [exact Hattr|]. apply bind_Some. exists (a_id a).
    split; [now rewrite (selector_of_menu_item _ Hs), (quick_id_hash _ Hs)|].
    eapply getElementById_first; [exact Hp | now apply eid_new_panel |].
    intros q e' Hq He'.
    destruct (decide (q < s)) as [Hqs|Hqs].
    + rewrite P in He' by trivial. eapply Hfresh; try eassumption.
      eapply list_elem_of_lookup_2. exact Hidj.
    + set (j' := q - s). assert (j' < j) as Hj' by (subst j'; lia).
      destruct (lookup_lt_is_Some_2 rs j' ltac:(lia)) as [[a' stamp'] Hr'].
      destruct (N j' a' stamp' Hr') as [_ Hp'].
      replace (s + j') with q in Hp' by (subst j'; lia).
      rewrite Hp' in He'. injection He' as <-.
      assert (ids_of rs !! j' = Some (a_id a')) as Hidj'.
      { unfold ids_of. change (map ?f ?l) with (f <$> l).
        now rewrite list_lookup_fmap, Hr'. }
      assert (simple_id (a_id a') = true) as Hs'.
      { rewrite Forall_forall in Hsimple. apply Hsimple.
        eapply list_elem_of_lookup_2. exact Hidj'. }
      destruct (simple_id_parts _ Hs') as (Hne' & _ & _).
      rewrite (eid_new_panel a' stamp' _ Hcr Hne' (simple_id_plain _ Hs')).
      intros E. injection E as E. rewrite E in Hidj'.
      pose proof (NoDup_lookup _ _ _ _ Hnd Hidj Hidj'). lia.
Qed.

(** Registrations with simple, distinct identifiers that no element
    before the row has, on a row of built-in headers, leave a row in
    order. *)
Lemma registered_tabs_wf rs st s n :
  (forall t, plain_text t = true -> charrefs t = t) ->
  row st = Some (s, n) -> s + n <= length (elems st) ->
  (forall i e, i < n -> elems st !! (s + i) = Some e ->
     exists id, eid e = Some id /\ is_builtin id = true) ->
  Forall (fun id => simple_id id = true) (ids_of rs) ->
  NoDup (ids_of rs) ->
  (forall i e id, i < s -> elems st !! i = Some e -> id ∈ ids_of rs -> eid e <> Some id) ->
  wf (register_all rs st) = true.
Proof.
  intros Hcr Hrow Hlen Hbuiltin Hsimple Hnd Hfresh.
  pose proof (registered_row_headers rs st s n Hcr Hrow Hlen Hbuiltin Hsimple Hnd Hfresh)
    as Hcases.
  unfold wf. apply andb_true_intro. split.
  - apply forallb_forall. intros i Hi. apply list_elem_of_In in Hi.
    unfold header_ok.
    destruct (Hcases i Hi) as [(id & Hid & Hb) | (j & id & _ & Hid & Hp)]; rewrite Hid.
    + now rewrite Hb.
    + rewrite Hp. apply orb_true_intro. right. apply bool_decide_eq_true. eauto.
  - apply bool_decide_eq_true. unfold custom_panels. apply NoDup_omap_inj.
    + apply NoDup_filter_bool, NoDup_row_indices.
    + intros x y p Hx Hy Hpx Hpy.
      apply elem_of_filter_bool in Hx as [Hx Hcx], Hy as [Hy Hcy].
      destruct (Hcases x Hx) as [(id & Hid & Hb) | (jx & idx & Ex & _ & Hx')].
      { unfold custom in Hcx. rewrite Hid, Hb in Hcx. discriminate. }
      destruct (Hcases y Hy) as [(id & Hid & Hb) | (jy & idy & Ey & _ & Hy')].
      { unfold custom in Hcy. rewrite Hid, Hb in Hcy. discriminate. }
      rewrite Hpx in Hx'. rewrite Hpy in Hy'. injection Hx' as Hx'. injection Hy' as Hy'. lia.
Qed.

Lemma registered_clickable rs st s n i :
  row st = Some (s, n) -> s + n <= length (elems st) -> rs <> [] ->
  i ∈ row_indices (register_all rs st) -> clickable (register_all rs st) i.
Proof.
  intros Hrow Hlen Hne Hi. split; [exact Hi|].
  destruct (register_all_spec rs st s n Hrow Hlen) as (R & _ & O & N).
  unfold row_indices in Hi. rewrite R in Hi. apply list_elem_of_In, in_seq in Hi.
  assert (0 < length rs) as Hk by (destruct rs; [contradiction | simpl; lia]).
  destruct (decide (i < s + length rs + n)) as [Hlt|Hge].
  - replace i with (s + length rs + (i - (s + length rs))) by lia.
    set (i' := i - (s + length rs)). assert (i' < n) as Hi' by (subst i'; lia).
    destruct (lookup_lt_is_Some_2 (elems st) (s + i') ltac:(lia)) as [e He].
    eexists. rewrite (O i' Hi'), He. split; [reflexivity|].
    rewrite handlers_with_handlers. intros E. apply app_eq_nil in E as [_ E].
    apply (f_equal length) in E. rewrite length_closures_of in E. simpl in E. lia.
  - set (j := i - (s + length rs + n)). assert (j < length rs) as Hj by (subst j; lia).
    destruct (lookup_lt_is_Some_2 rs j Hj) as [[a stamp] Hr].
    destruct (N j a stamp Hr) as [Hh _].
    replace (s + length rs + n + j) with i in Hh by (subst j; lia).
    eexists. split; [exact Hh|].
    rewrite handlers_with_handlers. intros E. apply app_eq_nil in E as [_ E].
    apply (f_equal length) in E. rewrite length_drop, length_closures_of in E.
    simpl in E. lia.
Qed.

(** ** The active marker *)

Lemma same_marks_preorder : PreOrder same_marks.
Proof.
  split.
  - intros st. reflexivity.
  - intros s1 s2 s3 H12 H23. unfold same_marks in *. congruence.
Qed.

Lemma map_active_alter_shown b i l :
  map active (alter (set_shown b) i l) = map active l.
Proof.
  revert i. induction l as [|e l IH]; intros [|i]; simpl; trivial. f_equal. apply IH.
Qed.

Lemma same_marks_display b ps : respects same_marks (display b ps).
Proof.
  intros st. unfold same_marks, display, modify. simpl.
  induction ps as [|p ps IH]; [reflexivity|].
  cbn [foldr]. now rewrite map_active_alter_shown.
Qed.

Lemma same_marks_emit ev : respects same_marks (emit ev).
Proof. intros st. reflexivity. Qed.

Lemma same_marks_editors b : respects same_marks (editors_display b).
Proof. intros st. reflexivity. Qed.

Lemma same_marks_fire k c : respects same_marks (fire k c).
Proof.
  apply respects_fire_emit; [apply same_marks_preorder | exact same_marks_emit].
Qed.

Lemma same_marks_after_prelude c a st :
  same_marks (prelude a st) (snd (tab_click c a st)).
Proof.
  rewrite tab_click_unfold.
  apply (respects_bind same_marks).
  - apply same_marks_preorder.
  - apply respects_for_each; [apply same_marks_preorder|]. intros j _.
    apply respects_each_body;
      auto using same_marks_preorder, same_marks_editors, same_marks_fire,
        same_marks_display.
  - intros _. apply respects_show_active;
      auto using same_marks_preorder, same_marks_editors, same_marks_fire,
        same_marks_display, same_marks_emit.
Qed.

Lemma in_row_spec st s n j :
  row st = Some (s, n) -> (j ∈ row_indices st <-> in_row s n j = true).
Proof.
  intros Hrow. unfold row_indices, in_row. rewrite Hrow, elem_of_seq.
  rewrite andb_true_iff, Nat.leb_le, Nat.ltb_lt. reflexivity.
Qed.

Lemma prelude_marks a st j e1 :
  a ∈ row_indices st -> elems (prelude a st) !! j = Some e1 ->
  (j ∈ row_indices st -> active e1 = bool_decide (j = a))
  /\ (j ∉ row_indices st -> exists e, elems st !! j = Some e /\ active e1 = active e).
Proof.
  intros Ha. unfold prelude, activate, emit, modify. simpl.
  destruct (row st) as [[s n]|] eqn:Hrow;
    [|unfold row_indices in Ha; rewrite Hrow in Ha; inversion Ha].
  pose proof (in_row_spec st s n j Hrow) as Hj.
  destruct (decide (j = a)) as [->|Hne].
  - rewrite list_lookup_alter_eq, list_lookup_imap.
    destruct (elems st !! a) as [e|]; simpl; [|discriminate].
    intros [= <-]. split; [intros _; now rewrite bool_decide_eq_true_2|].
    intros Hn. contradiction.
  - rewrite list_lookup_alter_ne by congruence. rewrite list_lookup_imap.
    destruct (elems st !! j) as [e|]; simpl; [|discriminate].
    intros [= <-]. split.
    + intros Hin. apply Hj in Hin. rewrite Hin. simpl.
      now rewrite bool_decide_eq_false_2.
    + intros Hn. exists e. split; trivial.
      destruct (in_row s n j) eqn:E; trivial. exfalso. apply Hn, Hj. reflexivity.
Qed.

Lemma tab_click_marks c a st j e' :
  a ∈ row_indices st -> elems (snd (tab_click c a st)) !! j = Some e' ->
  (j ∈ row_indices st -> active e' = bool_decide (j = a))
  /\ (j ∉ row_indices st -> exists e, elems st !! j = Some e /\ active e' = active e).
Proof.
  intros Ha He'. pose proof (same_marks_after_prelude c a st) as Hm.
  unfold same_marks in Hm.
  assert (exists e1, elems (prelude a st) !! j = Some e1 /\ active e' = active e1)
    as (e1 & He1 & Hact).
  { apply (f_equal (fun l => l !! j)) in Hm. rewrite !list_lookup_fmap, He' in Hm.
    destruct (elems (prelude a st) !! j) as [e1|]; [|discriminate].
    exists e1. split; trivial. simpl in Hm. congruence. }
  rewrite Hact. exact (prelude_marks a st j e1 Ha He1).
Qed.

(** X2. A click on a header of the row that has a handler leaves that header
    as the one header of the row marked active, whether the handlers end
    normally or in an error; elements outside the row keep the marker
    they had. *)
Theorem clicked_header_alone_is_active a st j e' :
  clickable st a -> elems (snd (click a st)) !! j = Some e' ->
  (j ∈ row_indices st -> active e' = bool_decide (j = a))
  /\ (j ∉ row_indices st -> exists e, elems st !! j = Some e /\ active e' = active e).
Proof.
  intros (Ha & e0 & He0 & Hh). unfold click, bind, get. rewrite He0.
  generalize (handlers e0) Hh. clear He0 Hh e0. intros cs Hcs.
  assert (forall st1, frame st st1 ->
            (forall i e1, elems st1 !! i = Some e1 -> i ∉ row_indices st ->
               exists e, elems st !! i = Some e /\ active e1 = active e) ->
            elems (snd (run_handlers cs a st1)) !! j = Some e' ->
            (j ∈ row_indices st -> active e' = bool_decide (j = a))
            /\ (j ∉ row_indices st -> exists e, elems st !! j = Some e /\ active e' = active e))
    as Hgen.
  { induction cs as [|c cs IH]; [contradiction|].
    intros st1 F1 Hout. simpl. unfold bind.
    pose proof (frame_tab_click c a st1) as F2.
    assert (a ∈ row_indices st1) as Ha1 by now rewrite (frame_row_indices _ _ F1).
    pose proof (fun i e => tab_click_marks c a st1 i e Ha1) as Hm.
    rewrite (frame_row_indices _ _ F1) in Hm.
    destruct (tab_click c a st1) as [[[]|e] st2] eqn:E; simpl in *.
    - destruct cs as [|c' cs].
      + simpl. intros He'. destruct (Hm j e' He') as [Hin Hnot]. split; trivial.
        intros Hn. destruct (Hnot Hn) as (e1 & He1 & Hact).
        destruct (Hout j e1 He1 Hn) as (e & He & Hact1). exists e. split; congruence.
      + apply IH; [discriminate | eapply frame_trans; eassumption |].
        intros i e2 He2 Hn. destruct (Hm i e2 He2) as [_ Hnot].
        destruct (Hnot Hn) as (e1 & He1 & Hact).
        destruct (Hout i e1 He1 Hn) as (e & He & Hact1). exists e. split; congruence.
    - intros He'. destruct (Hm j e' He') as [Hin Hnot]. split; trivial.
      intros Hn. destruct (Hnot Hn) as (e1 & He1 & Hact).
      destruct (Hout j e1 He1 Hn) as (e0 & He0 & Hact1). exists e0. split; congruence. }
  apply Hgen; [apply frame_refl|]. intros i e1 He1 _. now exists e1.
Qed.

(** ** Clicking a header whose id names a built-in editor *)

Lemma hides_only_activate a : respects hides_only (activate a).
Proof.
  intros st p. unfold vis, activate, modify. simpl.
  destruct (decide (p = a)) as [->|Hne].
  - rewrite list_lookup_alter_eq.
    destruct (row st) as [[s n]|].
    + rewrite list_lookup_imap. destruct (elems st !! a); simpl; trivial.
      now destruct (in_row s n a).
    + now destruct (elems st !! a).
  - rewrite list_lookup_alter_ne by congruence.
    destruct (row st) as [[s n]|]; trivial.
    rewrite list_lookup_imap. destruct (elems st !! p); simpl; trivial.
    now destruct (in_row s n p).
Qed.



(** ** How often the callbacks are called *)










(** ** What a registration leaves as it was *)

(** X7. In a document where the tab row is not rendered, registrations
    change nothing a later click could meet: the elements, with their
    handlers, the editor surfaces and the log are as before, however many
    tabs are registered, and only the node counter moves on, by two per
    registration. Each registration still returns its panel, hidden. *)
Theorem registrations_without_row rs st :
  row st = None ->
  elems (register_all rs st) = elems st
  /\ row (register_all rs st) = None
  /\ editors (register_all rs st) = editors st
  /\ log (register_all rs st) = log st
  /\ next_nid (register_all rs st) = next_nid st + 2 * length rs
  /\ forall a stamp,
       shown (fst (bbc_tab a stamp st)) = false
       /\ nid (fst (bbc_tab a stamp st)) = S (next_nid st).
Proof.
  intros Hrow. split; [|split; [|split; [|split; [|split]]]].
  1-5: revert st Hrow; induction rs as [|[a stamp] rs IH]; intros st Hrow;
    [simpl; trivial; lia|];
    cbn [register_all]; unfold bbc_tab at 1; rewrite Hrow; cbn [snd];
    rewrite IH by reflexivity; cbn [elems row editors log next_nid length]; trivial; lia.
  intros a stamp. now rewrite fst_bbc_tab.
Qed.

Lemma in_row_false s n i : ~ (s <= i < s + n) -> in_row s n i = false.
Proof.
  intros H. unfold in_row. apply andb_false_iff.
  destruct (decide (s <= i)); [right; apply Nat.ltb_ge; lia | left; apply Nat.leb_gt; lia].
Qed.

Lemma in_row_true s n i : s <= i < s + n -> in_row s n i = true.
Proof.
  intros H. unfold in_row. apply andb_true_iff.
  split; [apply Nat.leb_le | apply Nat.ltb_lt]; lia.
Qed.

(** X8. A registration on a rendered row, with an inert title and content
    and an identifier that is plain text, keeps every element the document
    had: each one is found again, where the two new nodes have pushed it,
    with the node identity, [id], display state, active marker, style and
    handlers it had, the headers of the row with the new handler bound
    after the ones they had. The editor surfaces are as they were and
    nothing is logged: no callback is called by registering. *)
Theorem registration_keeps_the_page a stamp st s n :
  well_formed_markup (a, stamp) = true ->
  row st = Some (s, n) -> s + n <= length (elems st) ->
  (forall i e, elems st !! i = Some e ->
     elems (snd (bbc_tab a stamp st)) !! moved s n i
     = Some (if in_row s n i then add_handler (new_handler a st) e else e))
  /\ editors (snd (bbc_tab a stamp st)) = editors st
  /\ log (snd (bbc_tab a stamp st)) = log st.
Proof.
  intros _ Hrow Hlen.
  destruct (bbc_tab_spec a stamp st s n Hrow Hlen) as (_ & _ & _ & Hbefore & _ & Hrowel & _).
  split; [|unfold bbc_tab; rewrite Hrow; now split].
  intros i e He. unfold moved.
  destruct (Nat.ltb_spec i s) as [Hi|Hi].
  - rewrite (Hbefore i Hi), He. now rewrite in_row_false by lia.
  - destruct (Nat.ltb_spec i (s + n)) as [Hi2|Hi2].
    + specialize (Hrowel (i - s) ltac:(lia)).
      replace (S s + (i - s)) with (S i) in Hrowel by lia.
      replace (s + (i - s)) with i in Hrowel by lia.
      rewrite Hrowel, He. now rewrite in_row_true by lia.
    + rewrite in_row_false by lia.
      unfold bbc_tab. rewrite Hrow. cbn [snd elems].
      rewrite list_lookup_imap.
      rewrite lookup_insert_at_gt by (try rewrite length_insert_at; lia).
      rewrite lookup_insert_at_gt by lia.
      rewrite He. simpl. now rewrite in_row_false by lia.
Qed.

(** ** Headers whose id is not of the form [menu-item-<id>] *)



(** ** [yootil.create.page] *)

Lemma hyphens_app s t : hyphens (s +:+ t) = hyphens s + hyphens t.
Proof.
  induction s as [|c s IH]; [reflexivity|].
  change (String c s +:+ t) with (String c (s +:+ t)). cbn [hyphens]. rewrite IH. lia.
Qed.

Lemma space_is_no_hyphen c : is_space c = true -> Ascii.eqb c "-" = false.
Proof.
  intros H. destruct (Ascii.eqb_spec c "-") as [->|]; [|reflexivity].
  vm_compute in H. discriminate H.
Qed.

Lemma hyphens_strip_leading s : hyphens (strip_leading s) = hyphens s.
Proof.
  induction s as [|c s IH]; [reflexivity|].
  cbn [strip_leading]. destruct (is_space c) eqn:Hc; [|reflexivity].
  cbn [hyphens]. now rewrite IH, (space_is_no_hyphen c Hc).
Qed.

Lemma hyphens_collapse s : forall pending, hyphens (collapse pending s) = hyphens s.
Proof.
  induction s as [|c s IH]; intros pending; [reflexivity|].
  cbn [collapse]. destruct (is_space c) eqn:Hc.
  - cbn [hyphens]. now rewrite IH, (space_is_no_hyphen c Hc).
  - destruct pending; cbn [hyphens]; rewrite IH; [|reflexivity].
    change (Ascii.eqb " " "-") with false. reflexivity.
Qed.

Lemma hyphens_strip_collapse s : hyphens (strip_collapse s) = hyphens s.
Proof. unfold strip_collapse. now rewrite hyphens_collapse, hyphens_strip_leading. Qed.

Lemma set_title_facts v d :
  href (set_title v d) = href d
  /\ has_head (set_title v d) = has_head d
  /\ content_children (set_title v d) = content_children d
  /\ (title_element (set_title v d) = title_element d
      \/ title_element (set_title v d) = Some v).
Proof.
  unfold set_title. destruct (title_element d) as [t|] eqn:Ht.
  - cbn. auto.
  - destruct (has_head d) eqn:Hh; cbn; rewrite ?Ht, ?Hh; auto.
Qed.

Lemma set_title_sets v d :
  title_element d <> None \/ has_head d = true ->
  title_element (set_title v d) = Some v.
Proof.
  intros H. unfold set_title. destruct (title_element d) as [t|]; [reflexivity|].
  destruct H as [H|H]; [now contradiction H|]. now rewrite H.
Qed.

(** X11. For a pattern that is left out, [null], a string or a [RegExp], a
    title that is left out, [null] or a string, and a [hide_content] that
    is left out or a boolean, [page] leaves the address and the [head]
    alone; the text of the [title] element is left as it was or becomes
    what [document.title] read before, followed by [" - "] and the
    non-empty title; no child of the content area that was hidden is
    displayed, and none is added or removed. It can end in an error only
    where it builds the regular expression from a non-empty string
    pattern, or where the title is [null], and then it has changed
    nothing. Without a pattern, or with the empty string, it changes
    nothing and builds no expression. *)
Theorem page_only_adds_and_hides a d :
  href (snd (page a d)) = href d
  /\ has_head (snd (page a d)) = has_head d
  /\ (title_element (snd (page a d)) = title_element d
      \/ exists t, p_title a = Some (TitleString t) /\ t <> ""
           /\ title_element (snd (page a d)) = Some (get_title d +:+ " - " +:+ t))
  /\ length (content_children (snd (page a d))) = length (content_children d)
  /\ (forall i, content_children (snd (page a d)) !! i = Some true ->
        content_children d !! i = Some true)
  /\ (forall e, fst (page a d) = Throw e ->
        snd (page a d) = d
        /\ ((exists s, p_pattern a = Some (PatString s) /\ s <> ""
                /\ new_RegExp ("/?" +:+ s) "i" = Throw e)
            \/ (e = TypeError /\ p_title a = Some TitleNull)))
  /\ (no_pattern (p_pattern a) = true -> page a d = (Ok tt, d)).
Proof.
  assert (forall d1 : site,
            href d1 = href d -> has_head d1 = has_head d ->
            content_children d1 = content_children d ->
            forall b : bool,
            let d2 := if b then hide_children d1 else d1 in
            href d2 = href d /\ has_head d2 = has_head d
            /\ title_element d2 = title_element d1
            /\ length (content_children d2) = length (content_children d)
            /\ (forall i, content_children d2 !! i = Some true ->
                  content_children d !! i = Some true)) as Hhide.
  { intros d1 H1 H2 H3 [|]; cbn.
    - rewrite H3, length_map. repeat split; trivial.
      intros i. rewrite list_lookup_fmap. destruct (content_children d !! i); discriminate.
    - rewrite H3. repeat split; trivial. }
  unfold page. destruct (no_pattern (p_pattern a)) eqn:Hno.
  { cbn [fst snd]. split; [reflexivity|]. split; [reflexivity|]. split; [now left|].
    split; [reflexivity|]. split; [trivial|]. split; [discriminate | reflexivity]. }
  destruct (p_pattern a) as [pat|] eqn:Hpat; [|discriminate].
  destruct (reg_of pat) as [reg|e0] eqn:Hreg.
  - destruct (str_match (href d) reg).
    + destruct (p_title a) as [[|t]|] eqn:Ht; cbn [default from_option id].
      * cbn [fst snd]. split; [reflexivity|]. split; [reflexivity|]. split; [now left|].
        split; [reflexivity|]. split; [trivial|]. split; [|discriminate].
        intros e He. injection He as <-. split; [reflexivity|]. right. now split.
      * cbn zeta. cbn [fst snd].
        destruct (String.eqb_spec t "") as [->|Hne]; cbn [negb].
        -- destruct (Hhide d eq_refl eq_refl eq_refl (default true (p_hide_content a)))
             as (H1 & H2 & H3 & H4 & H5).
           split; [exact H1|]. split; [exact H2|]. split; [left; exact H3|].
           split; [exact H4|]. split; [exact H5|]. split; discriminate.
        -- destruct (set_title_facts (get_title d +:+ " - " +:+ t) d)
             as (S1 & S2 & S3 & S4).
           destruct (Hhide _ S1 S2 S3 (default true (p_hide_content a)))
             as (H1 & H2 & H3 & H4 & H5).
           split; [exact H1|]. split; [exact H2|].
           split.
           { rewrite H3. destruct S4 as [S4|S4]; [now left|].
             right. exists t. now repeat split. }
           split; [exact H4|]. split; [exact H5|]. split; discriminate.
      * cbn zeta. cbn [fst snd]. change (String.eqb "" "") with true. cbn [negb].
        destruct (Hhide d eq_refl eq_refl eq_refl (default true (p_hide_content a)))
          as (H1 & H2 & H3 & H4 & H5).
        split; [exact H1|]. split; [exact H2|]. split; [left; exact H3|].
        split; [exact H4|]. split; [exact H5|]. split; discriminate.
    + cbn [fst snd]. split; [reflexivity|]. split; [reflexivity|]. split; [now left|].
      split; [reflexivity|]. split; [trivial|]. split; discriminate.
  - cbn [fst snd]. split; [reflexivity|]. split; [reflexivity|]. split; [now left|].
    split; [reflexivity|]. split; [trivial|]. split; [|discriminate].
    intros e1 He1. injection He1 as <-. split; [reflexivity|]. left.
    destruct pat as [s|r]; [|discriminate]. exists s.
    simpl in Hno. apply String.eqb_neq in Hno. split; [reflexivity|]. now split.
Qed.

(** X12. [page] is not idempotent: called twice with a string pattern that
    matches the address and a non-empty string as title, on a document
    that has a [title] element or a [head], it adds the title twice. The
    text of the [title] element is, after the first call, what
    [document.title] read before, followed by [" - "] and the title;
    after the second call it is that text with its whitespace stripped
    and collapsed, followed by [" - "] and the title again, and it is not
    the text that the first call left. The children of the content area
    are hidden after the first call as after the second. *)
Theorem page_twice_adds_title_twice a d s reg t :
  p_pattern a = Some (PatString s) -> s <> "" ->
  new_RegExp ("/?" +:+ s) "i" = Ok reg -> str_match (href d) reg = true ->
  p_title a = Some (TitleString t) -> t <> "" ->
  title_element d <> None \/ has_head d = true ->
  fst (page a (snd (page a d))) = Ok tt
  /\ title_element (snd (page a d)) = Some (get_title d +:+ " - " +:+ t)
  /\ title_element (snd (page a (snd (page a d))))
     = Some (strip_collapse (get_title d +:+ " - " +:+ t) +:+ " - " +:+ t)
  /\ title_element (snd (page a (snd (page a d)))) <> title_element (snd (page a d))
  /\ content_children (snd (page a (snd (page a d))))
     = content_children (snd (page a d)).
Proof.
  intros Hp Hs Hreg Hm Ht Hne Hdoc.
  apply String.eqb_neq in Hs, Hne.
  assert (forall d0, href d0 = href d ->
            page a d0
            = (Ok tt,
               if default true (p_hide_content a)
               then hide_children (set_title (get_title d0 +:+ " - " +:+ t) d0)
               else set_title (get_title d0 +:+ " - " +:+ t) d0)) as Hpage.
  { intros d0 Hh. unfold page. rewrite Hp. simpl no_pattern. rewrite Hs.
    cbn [reg_of]. rewrite Hreg, Hh, Hm, Ht. cbn zeta.
    change (default (TitleString "") (Some (TitleString t))) with (TitleString t).
    cbn iota. rewrite Hne. cbn [negb]. reflexivity. }
  set (x := get_title d +:+ " - " +:+ t).
  pose proof (set_title_sets x d Hdoc) as Hx.
  destruct (set_title_facts x d) as (S1 & S2 & S3 & _).
  assert (Some (strip_collapse x +:+ " - " +:+ t) <> Some x) as Hdiff.
  { intros E. injection E as E. apply (f_equal hyphens) in E.
    rewrite !hyphens_app, hyphens_strip_collapse in E.
    change (hyphens " - ") with 1 in E. lia. }
  rewrite (Hpage d eq_refl). fold x.
  destruct (default true (p_hide_content a)) eqn:Hh; cbn [snd].
  - assert (get_title (hide_children (set_title x d)) = strip_collapse x) as Hg
      by (unfold get_title, hide_children; cbn [title_element]; now rewrite Hx).
    rewrite Hpage by (cbn [hide_children href]; exact S1).
    rewrite Hg. cbn [fst snd].
    assert (title_element (hide_children (set_title x d)) <> None) as Hsome
      by (cbn [hide_children title_element]; rewrite Hx; discriminate).
    destruct (set_title_facts (strip_collapse x +:+ " - " +:+ t)
                (hide_children (set_title x d))) as (_ & _ & T3 & _).
    pose proof (set_title_sets (strip_collapse x +:+ " - " +:+ t) _ (or_introl Hsome))
      as Hy.
    cbn [hide_children title_element content_children].
    rewrite Hy, Hx, T3. cbn [hide_children content_children].
    split; [reflexivity|]. split; [reflexivity|].
    split; [reflexivity|]. split; [exact Hdiff|].
    now rewrite map_map.
  - assert (get_title (set_title x d) = strip_collapse x) as Hg
      by (unfold get_title; now rewrite Hx).
    rewrite Hpage by exact S1.
    rewrite Hg. cbn [fst snd].
    assert (title_element (set_title x d) <> None) as Hsome
      by (rewrite Hx; discriminate).
    destruct (set_title_facts (strip_collapse x +:+ " - " +:+ t) (set_title x d))
      as (_ & _ & T3 & _).
    rewrite (set_title_sets _ _ (or_introl Hsome)), Hx.
    split; [reflexivity|]. split; [reflexivity|].
    split; [reflexivity|]. split; [exact Hdiff|].
    exact T3.
Qed.

(** ** Callbacks after several registrations *)







Lemma registered_header_id rs st s n j a stamp :
  (forall t, plain_text t = true -> charrefs t = t) ->
  row st = Some (s, n) -> s + n <= length (elems st) ->
  Forall (fun id => simple_id id = true) (ids_of rs) ->
  rs !! j = Some (a, stamp) ->
  attr_id (s + length rs + n + j) (register_all rs st) = Some ("menu-item-" +:+ a_id a).
Proof.
  intros Hcr Hrow Hlen Hsimple Hr.
  destruct (register_all_spec rs st s n Hrow Hlen) as (_ & _ & _ & N).
  destruct (N j a stamp Hr) as [Hh _].
  assert (simple_id (a_id a) = true) as Hs.
  { rewrite Forall_forall in Hsimple. apply Hsimple.
    unfold ids_of. change (map ?f ?l) with (f <$> l).
    apply list_elem_of_fmap. exists (a, stamp). split; [reflexivity|].
    eapply list_elem_of_lookup_2. exact Hr. }
  destruct (simple_id_parts _ Hs) as (Hne & _ & _).
  unfold attr_id. rewrite Hh. simpl. rewrite eid_with_handlers.
  apply eid_new_tab; trivial. now apply simple_id_plain.
Qed.

(** The row after registrations with simple, distinct identifiers, none
    of them matching [bbcode] or [visual], on a row of built-in headers:
    the old headers, without panels, then the new ones, each with its
    panel before the row. *)
Lemma registered_row_facts rs st s n :
  (forall t, plain_text t = true -> charrefs t = t) ->
  row st = Some (s, n) -> s + n <= length (elems st) ->
  (forall i e, i < n -> elems st !! (s + i) = Some e ->
     exists id, eid e = Some id /\ is_builtin id = true) ->
  Forall (fun id => simple_id id = true) (ids_of rs) ->
  Forall (fun id => is_builtin ("menu-item-" +:+ id) = false) (ids_of rs) ->
  NoDup (ids_of rs) ->
  (forall i e id, i < s -> elems st !! i = Some e -> id ∈ ids_of rs -> eid e <> Some id) ->
  row_plain (register_all rs st) = true
  /\ row_indices (register_all rs st) = seq (s + length rs) n ++ seq (s + length rs + n) (length rs)
  /\ (forall j, j < length rs ->
        has_panel (register_all rs st) (s + length rs + n + j) = true
        /\ panel_of (register_all rs st) (s + length rs + n + j) = Some (s + j))
  /\ (forall i, i < n ->
        has_panel (register_all rs st) (s + length rs + i) = false
        /\ custom (register_all rs st) (s + length rs + i) = false).
Proof.
  intros Hcr Hrow Hlen Hbuiltin Hsimple Hcustom Hnd Hfresh.
  set (st1 := register_all rs st). set (k := length rs).
  destruct (register_all_spec rs st s n Hrow Hlen) as (R & _ & _ & N).
  fold st1 k in R, N.
  pose proof (registered_row_headers rs st s n Hcr Hrow Hlen Hbuiltin Hsimple Hnd Hfresh)
    as Hcases. fold st1 k in Hcases.
  pose proof (registered_tabs_wf rs st s n Hcr Hrow Hlen Hbuiltin Hsimple Hnd Hfresh)
    as Hwf. fold st1 in Hwf.
  assert (row_indices st1 = seq (s + k) n ++ seq (s + k + n) k) as Hseq.
  { unfold row_indices. rewrite R. apply seq_app. }
  assert (forall i, i ∈ row_indices st1 <-> s + k <= i < s + k + (n + k)) as Hrowi.
  { intros i. unfold row_indices. rewrite R. apply elem_of_seq. }
  split; [now apply wf_row_plain|]. split; [exact Hseq|]. split.
  - intros j' Hj'. destruct (lookup_lt_is_Some_2 rs j' Hj') as [[a' stamp'] Hr'].
    pose proof (registered_header_id rs st s n j' a' stamp' Hcr Hrow Hlen Hsimple Hr')
      as Hid. fold st1 k in Hid.
    assert (is_builtin ("menu-item-" +:+ a_id a') = false) as Hnb.
    { rewrite Forall_forall in Hcustom. apply Hcustom.
      unfold ids_of. change (map ?f ?l) with (f <$> l).
      apply list_elem_of_fmap. exists (a', stamp'). split; [reflexivity|].
      eapply list_elem_of_lookup_2. exact Hr'. }
    destruct (Hcases (s + k + n + j')) as [(id & Hid' & Hb) | (j'' & id & E & _ & Hp)].
    + apply Hrowi. lia.
    + rewrite Hid in Hid'. injection Hid' as <-. rewrite Hnb in Hb. discriminate Hb.
    + assert (j'' = j') as -> by lia. split; [|exact Hp].
      unfold has_panel, custom. rewrite Hid, Hnb, Hp. reflexivity.
  - intros i Hi.
    destruct (Hcases (s + k + i)) as [(id & Hid & Hb) | (j'' & id & E & _)];
      [apply Hrowi; lia | | lia].
    unfold has_panel, custom. now rewrite Hid, Hb.
Qed.

(** C1, as the code has it. Take a row of built-in headers and register
    on it one or more tabs with inert titles and contents and with
    simple, distinct identifiers (word characters and hyphens, without
    [menu-item-] in them), none of which matches [bbcode] or [visual] and
    none of which is the id of an element before the row. Then every
    sequence of clicks on headers of the row ends without error, and
    after it, of the panels of the registered tabs, the panel of the tab
    whose header was clicked last is displayed and no other; when the
    header clicked last is a built-in one, none of them is displayed and
    the native editor surface is. (The panel of registration [j] is in
    position [s + j], its header in position [s + length rs + n + j].) *)
Theorem one_panel_visible_after_each_click rs st s n l a :
  (forall t, plain_text t = true -> charrefs t = t) ->
  row st = Some (s, n) -> s + n <= length (elems st) ->
  (forall i e, i < n -> elems st !! (s + i) = Some e ->
     exists id, eid e = Some id /\ is_builtin id = true) ->
  Forall (fun r => inert_markup (fst r) = true) rs ->
  Forall (fun id => simple_id id = true) (ids_of rs) ->
  Forall (fun id => is_builtin ("menu-item-" +:+ id) = false) (ids_of rs) ->
  NoDup (ids_of rs) ->
  (forall i e id, i < s -> elems st !! i = Some e -> id ∈ ids_of rs -> eid e <> Some id) ->
  rs <> [] ->
  Forall (fun b => b ∈ row_indices (register_all rs st)) (l ++ [a]) ->
  exists st',
    clicks (l ++ [a]) (register_all rs st) = (Ok tt, st')
    /\ (forall j, j < length rs ->
          vis st' (s + j) = bool_decide (a = s + length rs + n + j))
    /\ (a < s + length rs + n -> editors_all true st').
Proof.
  intros Hcr Hrow Hlen Hbuiltin _ Hsimple Hcustom Hnd Hfresh Hne Hclicks.
  destruct (registered_row_facts rs st s n Hcr Hrow Hlen Hbuiltin Hsimple Hcustom Hnd Hfresh)
    as (_ & Hseq & Hreg & Hold).
  pose proof (registered_tabs_wf rs st s n Hcr Hrow Hlen Hbuiltin Hsimple Hnd Hfresh) as Hwf.
  set (st1 := register_all rs st) in *. set (k := length rs) in *.
  assert (Forall (clickable st1) (l ++ [a])) as Hcl.
  { eapply Forall_impl; [exact Hclicks|]. intros b Hb.
    exact (registered_clickable rs st s n b Hrow Hlen Hne Hb). }
  apply Forall_app in Hcl as [Hl Ha]. rewrite Forall_singleton in Ha.
  destruct (clicks_wf l st1 Hwf Hl) as (st2 & E1 & F1).
  assert (wf st2 = true) as Hwf2 by now rewrite (frame_wf _ _ F1).
  destruct (click_wf a st2 Hwf2 (clickable_frame _ _ _ F1 Ha)) as (st' & E2 & F2 & S2).
  destruct (shows_only_frame _ _ _ _ F1 S2) as [Hvis Hed].
  exists st'. split; [|split].
  - rewrite clicks_app, (bind_ok _ _ _ _ _ E1). simpl. now rewrite (bind_ok _ _ _ _ _ E2).
  - intros j Hj. destruct (Hreg j Hj) as [Hp1 Hp2].
    unfold has_panel in Hp1. apply andb_prop in Hp1 as [Hc _].
    rewrite (Hvis (s + k + n + j) (s + j)); trivial.
    + apply bool_decide_ext. split; congruence.
    + rewrite Hseq. apply elem_of_app. right. apply elem_of_seq. lia.
  - intros Hlt. apply Hed.
    destruct Ha as [Ha _]. rewrite Hseq in Ha. apply elem_of_app in Ha as [Ha|Ha];
      apply elem_of_seq in Ha; [|lia].
    destruct (Hold (a - (s + k)) ltac:(lia)) as [_ Hnc].
    now replace (s + k + (a - (s + k))) with a in Hnc by lia.
Qed.



(** ** Two elements with the same id *)

Lemma find_id_min x l : forall i p q e,
  find_id x i l = Some p -> i <= q < p -> l !! (q - i) = Some e -> eid e <> Some x.
Proof.
  induction l as [|e0 l IH]; intros i p q e H Hq He; [discriminate|].
  simpl in H. destruct (decide (eid e0 = Some x)) as [E|E].
  - injection H as <-. lia.
  - destruct (decide (q = i)) as [->|Hne].
    + rewrite Nat.sub_diag in He. simpl in He. now injection He as <-.
    + apply (IH (S i) p q e H); [lia|].
      replace (q - i) with (S (q - S i)) in He by lia. exact He.
Qed.

Lemma duplicate_not_found st p q e e' x :
  q < p -> elems st !! q = Some e -> elems st !! p = Some e' -> eid e' = eid e ->
  getElementById x (elems st) <> Some p.
Proof.
  intros Hq He He' Hid Hg.
  destruct (getElementById_spec _ _ _ Hg) as (e1 & He1 & Hx).
  rewrite He' in He1. injection He1 as <-.
  apply (find_id_min x (elems st) 0 p q e Hg); [lia | now rewrite Nat.sub_0_r |].
  congruence.
Qed.

Lemma show_active_keeps_hidden c a st s1 p :
  row_plain st = true -> a ∈ row_indices st -> frame st s1 ->
  (forall x, getElementById x (elems st) <> Some p) ->
  vis (snd (show_active c a s1)) p = vis s1 p.
Proof.
  intros Hplain Ha F Hun.
  destruct (plain_header st a Hplain Ha) as (id & Hid & Hsel).
  assert (attr_id a s1 = Some id) as Hid1 by now rewrite (frame_attr_id _ _ a F).
  destruct (is_builtin id) eqn:Hb.
  { now rewrite (show_active_builtin c a s1 id Hid1 Hb). }
  assert (forall Hmiss : selector_of (Some id) = ""
                         \/ (exists x, quick_id (selector_of (Some id)) = Some x
                               /\ getElementById x (elems st) = None),
            show_active c a s1 = (Ok tt, s1)) as Hskip.
  { intros Hmiss. apply (show_active_missing c a s1 id Hid1 Hb).
    now apply (jq_missing st). }
  destruct (Hsel eq_refl) as [Hempty | (x & Hq)].
  - now rewrite Hskip by now left.
  - destruct (getElementById x (elems st)) as [q|] eqn:Hg.
    + assert (q <> p) as Hne by (intros ->; now apply (Hun x)).
      rewrite <- (frame_getElementById _ _ x F) in Hg.
      rewrite (show_active_show c a s1 id x q Hid1 Hb Hq Hg). cbn [snd].
      rewrite vis_with_log. now apply vis_alter_ne.
    + now rewrite Hskip by (right; eauto).
Qed.

Lemma tab_click_keeps_hidden c a st p :
  row_plain st = true -> a ∈ row_indices st ->
  (forall x, getElementById x (elems st) <> Some p) ->
  vis st p = false -> vis (snd (tab_click c a st)) p = false.
Proof.
  intros Hplain Ha Hun Hv. rewrite tab_click_unfold.
  pose proof (frame_prelude a st) as F1.
  assert (hides_only st (prelude a st)) as H1.
  { unfold prelude. intros q Hq. apply (hides_only_activate a) in Hq. exact Hq. }
  destruct (loop_trace c a st (row_indices (prelude a st)) Hplain) with (s1 := prelude a st)
    as (s2 & E & F2 & _); [intros j Hj; now rewrite <- (frame_row_indices _ _ F1) | exact F1 |].
  assert (hides_only (prelude a st) s2) as H2.
  { assert (respects hides_only (for_each (row_indices (prelude a st)) (each_body c a)))
      as Hloop.
    { apply respects_for_each; [apply hides_only_preorder|]. intros j _.
      apply hides_only_each_body. }
    specialize (Hloop (prelude a st)). now rewrite E in Hloop. }
  rewrite (bind_ok _ _ _ _ _ E).
  rewrite (show_active_keeps_hidden c a st s2 p Hplain Ha F2 Hun).
  destruct (vis s2 p) eqn:Hv2; trivial.
  apply H2, H1 in Hv2. congruence.
Qed.

(** X14. When two elements of the document have the same [id], no click on a
    header of a row whose headers need no selector engine displays the
    later one: the handler finds a panel by its id, which gives the first
    element that has it. So of two tabs registered under one identifier
    only the panel registered first is ever displayed (it sits before the
    other), whichever of the two headers is clicked. *)
Theorem later_duplicate_stays_hidden l st p q e e' :
  row_plain st = true -> Forall (fun a => a ∈ row_indices st) l ->
  q < p -> elems st !! q = Some e -> elems st !! p = Some e' -> eid e' = eid e ->
  vis st p = false ->
  vis (snd (clicks l st)) p = false.
Proof.
  intros Hplain Hl Hq He He' Hid Hv.
  assert (forall x, getElementById x (elems st) <> Some p) as Hun
    by (intros x; eapply duplicate_not_found; eassumption).
  clear Hq He He' Hid.
  assert (forall cs a s1, a ∈ row_indices st -> frame st s1 -> vis s1 p = false ->
            vis (snd (run_handlers cs a s1)) p = false
            /\ frame st (snd (run_handlers cs a s1))) as Hrun.
  { induction cs as [|c cs IH]; intros a s1 Ha F Hv1; [now split|].
    simpl. unfold bind.
    assert (vis (snd (tab_click c a s1)) p = false) as Hv2.
    { apply tab_click_keeps_hidden; trivial.
      - now rewrite (frame_row_plain _ _ F).
      - now rewrite (frame_row_indices _ _ F).
      - intros x. rewrite (frame_getElementById _ _ x F). apply Hun. }
    pose proof (frame_trans _ _ _ F (frame_tab_click c a s1)) as F2.
    destruct (tab_click c a s1) as [[[]|e0] s2]; simpl in *; [now apply IH | now split]. }
  assert (forall s1, frame st s1 -> vis s1 p = false ->
            vis (snd (clicks l s1)) p = false) as Hall.
  { induction Hl as [|a l Ha Hl IH]; intros s1 F Hv1; [exact Hv1|].
    simpl. unfold bind at 1.
    assert (vis (snd (click a s1)) p = false /\ frame st (snd (click a s1))) as [Hv2 F2].
    { unfold click, bind, get. destruct (elems s1 !! a) as [e0|]; [|now split].
      now apply Hrun. }
    destruct (click a s1) as [[[]|e0] s2]; simpl in *; [now apply IH | exact Hv2]. }
  apply Hall; [apply frame_refl | exact Hv].
Qed.

(** ** An identifier with an apostrophe *)

Lemma raw_id_attr_tab_cut x y title :
  plain_text x = true ->
  raw_id_attr (tab_markup (x +:+ String "'" y) title) = Some ("menu-item-" +:+ x).
Proof.
  intros H. unfold raw_id_attr, tab_markup. simpl.
  change ("" +:+ (x +:+ String "'" y) +:+ "'><a href='#'>" +:+ title +:+ "</a></li>")
    with ((x +:+ String "'" y) +:+ "'><a href='#'>" +:+ title +:+ "</a></li>").
  rewrite append_assoc.
  change (String "'" y +:+ "'><a href='#'>" +:+ title +:+ "</a></li>")
    with (String "'" (y +:+ "'><a href='#'>" +:+ title +:+ "</a></li>")).
  now rewrite (until_quote_plain x _ H).
Qed.

Lemma raw_id_attr_panel_cut x y content :
  plain_text x = true ->
  raw_id_attr (panel_markup (x +:+ String "'" y) content) = Some x.
Proof.
  intros H. unfold raw_id_attr, panel_markup. simpl.
  change ("" +:+ (x +:+ String "'" y) +:+ "'>" +:+ content +:+ "</div>")
    with ((x +:+ String "'" y) +:+ "'>" +:+ content +:+ "</div>").
  rewrite append_assoc.
  change (String "'" y +:+ "'>" +:+ content +:+ "</div>")
    with (String "'" (y +:+ "'>" +:+ content +:+ "</div>")).
  now rewrite (until_quote_plain x _ H).
Qed.

(** X18. An identifier is pasted into the markup between apostrophes, so
    an apostrophe in it ends the attribute value: when the title and the
    content are inert and the identifier is [x'y], with [x] plain text
    and [y] made of word characters and hyphens (so that what follows the
    apostrophe is read as an attribute name that means nothing), the new
    header gets the id [menu-item-x] and the panel the id [x]. Both are
    cut alike: when [x] is a simple
    identifier that no element before the row has, the header still finds
    the panel, so the tab switches as one registered under [x] would,
    while no element has the id that was asked for. *)
Theorem apostrophe_cuts_identifier a stamp st s n x y :
  (forall t, plain_text t = true -> charrefs t = t) ->
  row st = Some (s, n) -> s + n <= length (elems st) ->
  inert_markup a = true ->
  a_id a = x +:+ String "'" y -> plain_text x = true ->
  JsString.all_chars JsString.is_word_or_dash y = true ->
  (exists h, elems (snd (bbc_tab a stamp st)) !! (S s + n) = Some h
     /\ eid h = Some ("menu-item-" +:+ x))
  /\ eid (fst (bbc_tab a stamp st)) = Some x
  /\ (simple_id x = true ->
      (forall i e, i < s -> elems st !! i = Some e -> eid e <> Some x) ->
      panel_of (snd (bbc_tab a stamp st)) (S s + n) = Some s).
Proof.
  intros Hcr Hrow Hlen _ Hid Hx _.
  destruct (bbc_tab_spec a stamp st s n Hrow Hlen)
    as (_ & _ & _ & Hbefore & Hpanel & _ & Hnew).
  assert (used_id a stamp = x +:+ String "'" y) as Hused.
  { rewrite <- Hid. apply used_id_given. rewrite Hid. now destruct x. }
  assert (plain_text ("menu-item-" +:+ x) = true) as Hmx by exact Hx.
  assert (eid (new_tab a stamp (next_nid st)) = Some ("menu-item-" +:+ x)) as Htab.
  { unfold new_tab. simpl. rewrite Hused, (raw_id_attr_tab_cut _ _ _ Hx). simpl.
    now rewrite (Hcr _ Hmx). }
  assert (eid (new_panel a stamp (S (next_nid st))) = Some x) as Hpan.
  { unfold new_panel. simpl. rewrite Hused, (raw_id_attr_panel_cut _ _ _ Hx). simpl.
    now rewrite (Hcr _ Hx). }
  split; [|split].
  - eexists. split; [exact Hnew|]. exact Htab.
  - now rewrite fst_bbc_tab.
  - intros Hs Hfresh.
    assert (attr_id (S s + n) (snd (bbc_tab a stamp st)) = Some ("menu-item-" +:+ x))
      as Hattr by (unfold attr_id; rewrite Hnew; exact Htab).
    rewrite (panel_of_eq _ _ _ Hattr).
    rewrite (selector_of_menu_item _ Hs), (quick_id_hash _ Hs).
    change (getElementById x (elems (snd (bbc_tab a stamp st))) = Some s).
    eapply getElementById_first; [exact Hpanel | exact Hpan |].
    intros q e' Hq He'. rewrite (Hbefore q Hq) in He'. now apply (Hfresh q e').
Qed.

End Browser.

Arguments PatString {regexp} s.
Arguments PatRegExp {regexp} r.
Arguments p_pattern {regexp} p.
Arguments p_title {regexp} p.
Arguments p_hide_content {regexp} p.
Arguments no_pattern {regexp} p.
Arguments reg_of {regexp} new_RegExp p.
Arguments page {regexp} new_RegExp str_match a d.
Arguments shop_args {regexp}.


(** ** The page data lookup *)

(** C8, as the code has it. When the global [proboards] is declared the
    lookup ends with a value: [page[key]], own or inherited, when that is
    not [undefined] (so the value stored under the key, when one is
    stored that is not [undefined]), and the empty string when it is
    [undefined] or when [proboards], its [dataHash] or the [page] object
    fails the truth test. When [proboards] is not declared the call ends
    in a [ReferenceError]. *)
Theorem get_data_returns_stored_or_empty
    (inherited : Page.jsval -> string -> Page.jsval) (proboards : Page.global)
    (key : string) :
  (proboards = Page.Undeclared ->
     Page.__get_data inherited proboards key = Page.ReferenceError)
  /\ (forall pb, proboards = Page.Declared pb ->
        (forall pg, Page.page_data inherited proboards = Some pg ->
           Page.typeof (Page.get inherited pg key) <> "undefined" ->
           Page.__get_data inherited proboards key
           = Page.Return (Page.get inherited pg key))
        /\ (forall fields x,
              Page.page_data inherited proboards = Some (Page.JObject fields) ->
              Page.own fields key = Some x -> x <> Page.JUndefined ->
              Page.__get_data inherited proboards key = Page.Return x)
        /\ (Page.page_data inherited proboards = None ->
            Page.__get_data inherited proboards key = Page.Return (Page.JString ""))
        /\ (forall pg, Page.page_data inherited proboards = Some pg ->
              Page.get inherited pg key = Page.JUndefined ->
              Page.__get_data inherited proboards key = Page.Return (Page.JString ""))).
Proof.
  split; [now intros ->|].
  intros pb ->. unfold Page.page_data, Page.__get_data.
  destruct (Page.truthy pb); cbn [andb];
    [|repeat split; try discriminate; reflexivity].
  destruct (Page.truthy (Page.get inherited pb "dataHash")); cbn [andb];
    [|repeat split; try discriminate; reflexivity].
  destruct (Page.truthy (Page.get inherited (Page.get inherited pb "dataHash") "page"));
    [|repeat split; try discriminate; reflexivity].
  set (pg := Page.get inherited (Page.get inherited pb "dataHash") "page").
  split; [|split; [|split]].
  - intros pg' [= <-] Ht.
    destruct (String.eqb_spec (Page.typeof (Page.get inherited pg key)) "undefined");
      [contradiction | reflexivity].
  - intros fields x [= Hpg] Hx Hdef. rewrite Hpg. cbn [Page.get]. rewrite Hx.
    now destruct x.
  - discriminate.
  - intros pg' [= <-] Hu. now rewrite Hu.
Qed.

Lemma get_data_witness :
  Page.__get_data Page.plain_objects Page.board_page "id" = Page.Return (Page.JNumber 7)
  /\ Page.__get_data Page.plain_objects Page.board_page "name"
     = Page.Return (Page.JString "")
  /\ Page.__get_data Page.plain_objects Page.Undeclared "id" = Page.ReferenceError.
Proof.
  destruct (get_data_returns_stored_or_empty Page.plain_objects Page.board_page "id")
    as [_ Hid].
  destruct (Hid _ eq_refl) as (_ & Hstored & _).
  destruct (get_data_returns_stored_or_empty Page.plain_objects Page.board_page "name")
    as [_ Hname].
  destruct (Hname _ eq_refl) as (_ & _ & _ & Habsent).
  split; [|split].
  - apply (Hstored [("id", Page.JNumber 7)] (Page.JNumber 7)); [reflexivity | reflexivity |].
    discriminate.
  - apply (Habsent (Page.JObject [("id", Page.JNumber 7)])); reflexivity.
  - now apply (proj1 (get_data_returns_stored_or_empty Page.plain_objects Page.Undeclared
                        "id")).
Defined.

(** C8 as worded fails in both halves about what is not there: on the
    page that holds the id of the board the key [constructor] is not
    stored and the lookup returns the function every object inherits
    under that name; and where [proboards] is not declared, so that no
    data object is there, the lookup ends in a [ReferenceError]. *)
Lemma get_data_of_absent_key :
  ~ Page.absent_key_gives_empty Page.plain_objects
  /\ ~ Page.missing_data_gives_empty Page.plain_objects.
Proof.
  split.
  - intros H.
    specialize (H Page.board_page [("id", Page.JNumber 7)] "constructor" eq_refl eq_refl).
    discriminate H.
  - intros H. specialize (H Page.Undeclared "id" eq_refl). discriminate H.
Qed.

(** ** The properties on the page with two tabs *)

Ltac solve_clickable :=
  split;
  [ vm_compute; repeat constructor
  | eexists; split; [reflexivity | vm_compute; discriminate] ].


Lemma one_panel_visible_witness :
  exists st',
    clicks empty_engine ([4; 2] ++ [5])
      (register_all verbatim [(tab_a, "1"); (tab_b, "2")] platform_row) = (Ok tt, st')
    /\ (forall j, j < length [(tab_a, "1"); (tab_b, "2")] ->
          vis st' (0 + j)
          = bool_decide (5 = 0 + length [(tab_a, "1"); (tab_b, "2")] + 2 + j))
    /\ (5 < 0 + length [(tab_a, "1"); (tab_b, "2")] + 2 -> editors_all true st').
Proof.
  apply (one_panel_visible_after_each_click empty_engine verbatim
           [(tab_a, "1"); (tab_b, "2")] platform_row 0 2 [4; 2] 5).
  - intros t _. reflexivity.
  - reflexivity.
  - simpl. lia.
  - intros i e Hi He. destruct i as [|[|i]]; [| |lia]; simpl in He; injection He as <-;
      eexists; (split; [reflexivity | vm_compute; reflexivity]).
  - repeat (apply Forall_cons_2; [vm_compute; reflexivity|]). apply Forall_nil_2.
  - simpl. repeat (apply Forall_cons_2; [vm_compute; reflexivity|]). apply Forall_nil_2.
  - simpl. repeat (apply Forall_cons_2; [vm_compute; reflexivity|]). apply Forall_nil_2.
  - apply NoDup_cons. split; [|apply NoDup_singleton].
    intros H. apply list_elem_of_singleton in H. discriminate H.
  - intros i e id Hi. lia.
  - discriminate.
  - repeat (apply Forall_cons_2; [vm_compute; repeat constructor|]). apply Forall_nil_2.
Defined.

(** C1 as worded fails: the tab registered under the identifier
    [visual-notes] is handled as a built-in one, and after a click on
    its header (position 3) its panel (position 0) is not displayed. *)
Lemma visual_named_tab_is_not_shown :
  ~ clicked_tab_is_shown empty_engine verbatim [(tab_notes, "3")] platform_row.
Proof.
  intros H. specialize (H 0 2 0 0 eq_refl ltac:(simpl; lia) ltac:(simpl; lia)).
  assert (vis (snd (click empty_engine (0 + length [(tab_notes, "3")] + 2 + 0)
                      (register_all verbatim [(tab_notes, "3")] platform_row))) (0 + 0)
          = false) as Hv by (vm_compute; reflexivity).
  rewrite Hv in H. discriminate H.
Qed.



Lemma hide_callback_witness :
  tab_click empty_engine handler_a 3 (two_tabs verbatim)
  = (Ok tt, snd (tab_click empty_engine handler_a 3 (two_tabs verbatim)))
  /\ exists t1 t2,
       log (snd (tab_click empty_engine handler_a 3 (two_tabs verbatim)))
       = log (two_tabs verbatim) ++ t1
         ++ [EvCall OnHide 11 ThisEvents (c_tab handler_a) (c_content handler_a);
             EvDisplay false [5]]
         ++ t2.
Proof.
  split; [vm_compute; reflexivity|].
  apply (hide_callback_precedes_hiding empty_engine handler_a 3 5 (two_tabs verbatim)
           (snd (tab_click empty_engine handler_a 3 (two_tabs verbatim)))
           "menu-item-b" "b" 1 5 11 ThisEvents).
  - vm_compute. reflexivity.
  - vm_compute. repeat constructor.
  - vm_compute. reflexivity.
  - vm_compute. reflexivity.
  - vm_compute. discriminate.
  - vm_compute. reflexivity.
  - vm_compute. reflexivity.
  - vm_compute. reflexivity.
  - vm_compute. reflexivity.
Defined.

(** C3 as worded fails: when the handler bound by the registration of
    [a] looks at the header of [b] (node 4, panel node 5) after a click
    on the built-in header in position 3, the hide callback is passed
    nodes 2 and 3, the header and panel of [a]. *)
Lemma hide_is_passed_own_header :
  ~ hide_passes_looked_at_header empty_engine handler_a 3 (two_tabs verbatim).
Proof.
  intros H.
  assert (~ In (EvCall OnHide 11 ThisEvents 4 5)
            (log (snd (tab_click empty_engine handler_a 3 (two_tabs verbatim))))) as Hnot.
  { vm_compute. intros Hin.
    repeat (destruct Hin as [Hin|Hin]; [discriminate Hin|]). exact Hin. }
  destruct (H (snd (tab_click empty_engine handler_a 3 (two_tabs verbatim)))
              5 "menu-item-b" "b" 1 4 5 11 ThisEvents) as (t1 & t2 & E);
    try (vm_compute; first [reflexivity | discriminate | repeat constructor]).
  apply Hnot. rewrite E. apply in_or_app. right. apply in_or_app. right. left. reflexivity.
Qed.

Lemma missing_panel_witness :
  jq empty_engine (selector_of (Some "menu-item-gone")) row_with_orphan
  = (Ok [], row_with_orphan)
  /\ each_body empty_engine handler_a 0 1 row_with_orphan = (Ok tt, row_with_orphan)
  /\ show_active empty_engine handler_a 1 row_with_orphan = (Ok tt, row_with_orphan)
  /\ entry_trace handler_a row_with_orphan 0 1 = []
  /\ final_trace handler_a row_with_orphan 1 = []
  /\ (row_plain row_with_orphan = true -> 0 ∈ row_indices row_with_orphan ->
      exists st', tab_click empty_engine handler_a 0 row_with_orphan = (Ok tt, st')
        /\ frame row_with_orphan st'
        /\ log st' = log row_with_orphan ++ click_trace handler_a row_with_orphan 0).
Proof.
  split; [vm_compute; reflexivity|].
  apply (missing_panel_is_skipped empty_engine handler_a 0 1 row_with_orphan "menu-item-gone").
  - reflexivity.
  - vm_compute. reflexivity.
  - vm_compute. reflexivity.
Defined.


Lemma registration_witness :
  plain_text (a_id tab_a) = true
  /\ row (snd (bbc_tab verbatim tab_a "1" platform_row)) = Some (1, 3)
  /\ (exists h, elems (snd (bbc_tab verbatim tab_a "1" platform_row)) !! (1 + 2) = Some h
        /\ eid h = Some ("menu-item-" +:+ a_id tab_a))
  /\ elems (snd (bbc_tab verbatim tab_a "1" platform_row)) !! 0
     = Some (fst (bbc_tab verbatim tab_a "1" platform_row))
  /\ eid (fst (bbc_tab verbatim tab_a "1" platform_row)) = Some (a_id tab_a)
  /\ shown (fst (bbc_tab verbatim tab_a "1" platform_row)) = false.
Proof.
  split; [vm_compute; reflexivity|].
  apply (registration_with_plain_id verbatim tab_a "1" platform_row 0 2).
  - intros t _. reflexivity.
  - reflexivity.
  - simpl. lia.
  - vm_compute. reflexivity.
  - discriminate.
  - vm_compute. reflexivity.
Defined.

(** C7, at an identifier with an apostrophe. The registration of
    [tab_quoted], whose identifier is [a'b], on the platform's row returns
    a panel with the id [a] and leaves a new header with the id
    [menu-item-a]: the attribute value ends at the apostrophe. No element
    of the document has the id [a'b], and what C7 says of the two
    identifiers does not hold of this registration. *)
Theorem apostrophe_id_registration :
  eid (fst (bbc_tab verbatim tab_quoted "0" platform_row)) = Some "a"
  /\ (exists h, elems (snd (bbc_tab verbatim tab_quoted "0" platform_row)) !! 3 = Some h
        /\ eid h = Some "menu-item-a")
  /\ getElementById "a'b" (elems (snd (bbc_tab verbatim tab_quoted "0" platform_row))) = None
  /\ ~ registration_keeps_id verbatim tab_quoted "0" platform_row.
Proof.
  assert (eid (fst (bbc_tab verbatim tab_quoted "0" platform_row)) = Some "a") as Hcut
    by (vm_compute; reflexivity).
  split; [exact Hcut|]. split; [|split].
  - eexists. split; vm_compute; reflexivity.
  - vm_compute. reflexivity.
  - intros H.
    destruct (H 0 2 eq_refl ltac:(simpl; lia)) as (_ & _ & Hid & _).
    rewrite Hcut in Hid. discriminate Hid.
Qed.

Lemma bare_header_witness :
  eid {| nid := 1; eid := None; shown := true; active := false; style := []; handlers := [] |}
  = None
  /\ exists e, fst (tab_click empty_engine handler_a 0 row_with_bare_header) = Throw e.
Proof.
  split; [reflexivity|].
  apply (proj1 (header_without_id_throws empty_engine handler_a 0 row_with_bare_header) 1
           {| nid := 1; eid := None; shown := true; active := false;
              style := []; handlers := [] |}).
  - vm_compute. repeat constructor.
  - reflexivity.
  - reflexivity.
Defined.



(** ** More on the page data lookup *)

(** X15. The lookup never returns [undefined]; and it returns the empty
    string in exactly these cases: [proboards] is declared and either
    the page data object cannot be reached ([proboards], its [dataHash]
    or the [page] object fails the truth test) or [page[key]], own or
    inherited, is [undefined] or is the empty string. A caller cannot
    tell a key that gives nothing from one that holds the empty
    string. *)
Theorem get_data_is_defined
    (inherited : Page.jsval -> string -> Page.jsval) (proboards : Page.global)
    (key : string) :
  (forall r, Page.__get_data inherited proboards key = Page.Return r ->
     Page.typeof r <> "undefined")
  /\ (Page.__get_data inherited proboards key = Page.Return (Page.JString "") <->
      exists pb, proboards = Page.Declared pb
        /\ (Page.page_data inherited proboards = None
            \/ exists pg, Page.page_data inherited proboards = Some pg
                 /\ (Page.get inherited pg key = Page.JUndefined
                     \/ Page.get inherited pg key = Page.JString ""))).
Proof.
  destruct proboards as [|pb].
  { split; [discriminate|]. split; [discriminate|]. now intros (pb & H & _). }
  unfold Page.page_data, Page.__get_data.
  destruct (Page.truthy pb); cbn [andb].
  2:{ split; [now intros r [= <-]|]. split; [|reflexivity]. intros _. exists pb. auto. }
  destruct (Page.truthy (Page.get inherited pb "dataHash")); cbn [andb].
  2:{ split; [now intros r [= <-]|]. split; [|reflexivity]. intros _. exists pb. auto. }
  destruct (Page.truthy (Page.get inherited (Page.get inherited pb "dataHash") "page")).
  2:{ split; [now intros r [= <-]|]. split; [|reflexivity]. intros _. exists pb. auto. }
  set (v := Page.get inherited (Page.get inherited (Page.get inherited pb "dataHash") "page")
              key).
  split.
  - destruct v; simpl; intros r [= <-]; discriminate.
  - split.
    + intros H. exists pb. split; [reflexivity|]. right. eexists. split; [reflexivity|].
      fold v. destruct v; simpl in H; try discriminate H; [now left|].
      injection H as ->. now right.
    + intros (pb' & _ & [H | (pg & [= <-] & [H | H])]); [discriminate H | |];
        fold v in H; now rewrite H.
Qed.

(** ** The further properties on concrete pages *)

Lemma clicked_header_witness :
  clickable (two_tabs verbatim) 4
  /\ exists e',
       elems (snd (click empty_engine 4 (two_tabs verbatim))) !! 2 = Some e'
       /\ (2 ∈ row_indices (two_tabs verbatim) -> active e' = bool_decide (2 = 4))
       /\ (2 ∉ row_indices (two_tabs verbatim) ->
           exists e, elems (two_tabs verbatim) !! 2 = Some e /\ active e' = active e).
Proof.
  assert (clickable (two_tabs verbatim) 4) as Hc by solve_clickable.
  split; [exact Hc|].
  eexists. split; [vm_compute; reflexivity|].
  apply (clicked_header_alone_is_active empty_engine 4 (two_tabs verbatim) 2 _ Hc).
  vm_compute. reflexivity.
Defined.



Lemma registration_keeps_witness :
  well_formed_markup (tab_a, "1") = true
  /\ (forall i e, elems platform_row !! i = Some e ->
        elems (snd (bbc_tab verbatim tab_a "1" platform_row)) !! moved 0 2 i
        = Some (if in_row 0 2 i then add_handler (new_handler tab_a platform_row) e else e))
  /\ editors (snd (bbc_tab verbatim tab_a "1" platform_row)) = editors platform_row
  /\ log (snd (bbc_tab verbatim tab_a "1" platform_row)) = log platform_row.
Proof.
  assert (well_formed_markup (tab_a, "1") = true) as Hwell by (vm_compute; reflexivity).
  split; [exact Hwell|].
  apply (registration_keeps_the_page verbatim tab_a "1" platform_row 0 2 Hwell).
  - reflexivity.
  - simpl. lia.
Defined.

Lemma without_row_witness :
  elems (register_all verbatim [(tab_a, "1"); (tab_b, "2")] page_without_row)
  = elems page_without_row
  /\ row (register_all verbatim [(tab_a, "1"); (tab_b, "2")] page_without_row) = None
  /\ editors (register_all verbatim [(tab_a, "1"); (tab_b, "2")] page_without_row)
     = editors page_without_row
  /\ log (register_all verbatim [(tab_a, "1"); (tab_b, "2")] page_without_row)
     = log page_without_row
  /\ next_nid (register_all verbatim [(tab_a, "1"); (tab_b, "2")] page_without_row)
     = next_nid page_without_row + 2 * 2
  /\ forall a stamp,
       shown (fst (bbc_tab verbatim a stamp page_without_row)) = false
       /\ nid (fst (bbc_tab verbatim a stamp page_without_row))
          = S (next_nid page_without_row).
Proof.
  exact (registrations_without_row verbatim [(tab_a, "1"); (tab_b, "2")] page_without_row
           eq_refl).
Defined.


Lemma shop_page_witness :
  literal_match "https://forum.example/shop/" "/?shop" = true
  /\ fst (page literal_RegExp literal_match shop_args
            (snd (page literal_RegExp literal_match shop_args forum_page)))
     = Ok tt
  /\ title_element (snd (page literal_RegExp literal_match shop_args forum_page))
     = Some (get_title forum_page +:+ " - " +:+ "Shop")
  /\ title_element
       (snd (page literal_RegExp literal_match shop_args
               (snd (page literal_RegExp literal_match shop_args forum_page))))
     = Some (strip_collapse (get_title forum_page +:+ " - " +:+ "Shop") +:+ " - " +:+ "Shop")
  /\ title_element
       (snd (page literal_RegExp literal_match shop_args
               (snd (page literal_RegExp literal_match shop_args forum_page))))
     <> title_element (snd (page literal_RegExp literal_match shop_args forum_page))
  /\ content_children
       (snd (page literal_RegExp literal_match shop_args
               (snd (page literal_RegExp literal_match shop_args forum_page))))
     = content_children (snd (page literal_RegExp literal_match shop_args forum_page)).
Proof.
  assert (literal_match "https://forum.example/shop/" "/?shop" = true) as Hm
    by (vm_compute; reflexivity).
  split; [exact Hm|].
  apply (page_twice_adds_title_twice string literal_RegExp literal_match shop_args
           forum_page "shop" "/?shop" "Shop").
  - reflexivity.
  - discriminate.
  - reflexivity.
  - exact Hm.
  - reflexivity.
  - discriminate.
  - left. discriminate.
Defined.


Lemma twin_panel_witness :
  row_plain (twin_page verbatim) = true
  /\ vis (twin_page verbatim) 1 = false
  /\ vis (snd (clicks empty_engine [4; 5; 2; 5] (twin_page verbatim))) 1 = false.
Proof.
  assert (row_plain (twin_page verbatim) = true) as Hp by (vm_compute; reflexivity).
  assert (vis (twin_page verbatim) 1 = false) as Hv by (vm_compute; reflexivity).
  split; [exact Hp|]. split; [exact Hv|].
  eapply (later_duplicate_stays_hidden empty_engine [4; 5; 2; 5] (twin_page verbatim) 1 0
            _ _ Hp).
  - repeat (apply Forall_cons_2; [vm_compute; repeat constructor|]). apply Forall_nil_2.
  - lia.
  - vm_compute. reflexivity.
  - vm_compute. reflexivity.
  - vm_compute. reflexivity.
  - exact Hv.
Defined.


Lemma quoted_id_witness :
  (exists h, elems (snd (bbc_tab verbatim tab_quoted "0" platform_row)) !! (1 + 2) = Some h
     /\ eid h = Some ("menu-item-" +:+ "a"))
  /\ eid (fst (bbc_tab verbatim tab_quoted "0" platform_row)) = Some "a"
  /\ (simple_id "a" = true ->
      (forall i e, i < 0 -> elems platform_row !! i = Some e -> eid e <> Some "a") ->
      panel_of (snd (bbc_tab verbatim tab_quoted "0" platform_row)) (1 + 2) = Some 0).
Proof.
  apply (apostrophe_cuts_identifier verbatim tab_quoted "0" platform_row 0 2 "a" "b").
  - intros t _. reflexivity.
  - reflexivity.
  - simpl. lia.
  - vm_compute. reflexivity.
  - reflexivity.
  - vm_compute. reflexivity.
  - vm_compute. reflexivity.
Defined.
